(** * A ledger over a key-value store: balances and sell orders

    Shallow embedding of the two programs of the repository,
    [src/sample/cmd/sample/main.go] (module [Sample]) and [src/cmd/main.go]
    (module [Cmd]), over a model of the DynamoDB client they call.

    Amounts: the Go code holds amounts in [float64] and writes them to the
    store with [%f]; here an amount is an integer [Z] (a count of the
    smallest unit), so rounding is outside the model.

    The store is the key-value collaborator of the specification: point
    reads, unconditional puts and updates with an optional condition on
    one key.  What the service checks in the text of an expression (its
    syntax, reserved attribute names) is outside the model; expressions
    are kept as syntax trees.

    The store is shared with other clients.  Every call of the client
    consumes one [Tick] of a schedule: the tick first lets the other
    clients write to the store ([others]) and then may make the call fail
    ([fault]).  An empty schedule is a store used by nobody else that never
    fails. *)

From Stdlib Require Import ZArith Lia.
From stdpp Require Import gmap strings list fin_maps.

Open Scope string_scope.
Open Scope Z_scope.
Open Scope list_scope.

(** ** Go errors *)

(** The two dynamic types of [error] that occur: the value of [fmt.Errorf]
    (with [%v] the cause is only printed, not wrapped) and the SDK's
    [awserr.Error]. *)
Inductive error : Type :=
| errorString (s : string)
| awserrError (code message : string).

(** [err.Error()], which is also what [%v] prints. *)
Definition Error (e : error) : string :=
  match e with
  | errorString s => s
  | awserrError code message => code +:+ ": " +:+ message
  end.

(** [fmt.Errorf(prefix + "%v", err)] *)
Definition Errorf (prefix : string) (cause : error) : error :=
  errorString (prefix +:+ Error cause).

Definition ErrCodeConditionalCheckFailedException : string :=
  "ConditionalCheckFailedException".

(** ** The store *)

Inductive AttributeValue : Type :=
| AV_S (s : string)
| AV_N (n : Z).

#[global] Instance AttributeValue_eq_dec : EqDecision AttributeValue.
Proof. solve_decision. Defined.

Abbreviation Item := (gmap string AttributeValue).

(** The two tables, each a map from the value of its key attribute to the
    item. *)
Record DynamoDB : Type := {
  Balances : gmap string Item;
  Orders : gmap string Item
}.

(** The name of the key attribute of a table; [None] for a table that does
    not exist. *)
Definition keyName (table : string) : option string :=
  if String.eqb table "Balances" then Some "user_id"
  else if String.eqb table "Orders" then Some "order_id"
  else None.

Definition tableItems (table : string) (d : DynamoDB) : gmap string Item :=
  if String.eqb table "Balances" then Balances d else Orders d.

Definition setTableItems (table : string) (items : gmap string Item)
    (d : DynamoDB) : DynamoDB :=
  if String.eqb table "Balances"
  then {| Balances := items; Orders := Orders d |}
  else {| Balances := Balances d; Orders := items |}.

(** A [map[string]*AttributeValue] literal of the requests. *)
Abbreviation AttrList := (list (string * AttributeValue)).

Fixpoint assoc {A : Type} (name : string) (l : list (string * A)) : option A :=
  match l with
  | [] => None
  | (k, v) :: rest => if String.eqb k name then Some v else assoc name rest
  end.

(** [set a = :x, b = :y]: the attributes with the placeholders they get. *)
Inductive UpdateExpr : Type :=
| SET (assignments : list (string * string)).

(** [a = :x AND b = :y] *)
Inductive CondExpr : Type :=
| CondEq (attribute placeholder : string)
| CondAnd (c1 c2 : CondExpr).

Record GetItemInput : Type := {
  gi_TableName : string;
  gi_Key : AttrList
}.

Record PutItemInput : Type := {
  pi_TableName : string;
  pi_Item : Item
}.

Record UpdateItemInput : Type := {
  ui_TableName : string;
  ui_Key : AttrList;
  ui_UpdateExpression : UpdateExpr;
  ui_ConditionExpression : option CondExpr;
  ui_ExpressionAttributeValues : AttrList
}.

Definition ValidationException (message : string) : error :=
  awserrError "ValidationException" message.

Definition ResourceNotFoundException : error :=
  awserrError "ResourceNotFoundException" "Requested resource not found".

Definition ConditionalCheckFailedException : error :=
  awserrError ErrCodeConditionalCheckFailedException
              "The conditional request failed".

(** The key of a request: exactly the key attribute, with a string. *)
Definition keyOf (name : string) (key : AttrList) : option string :=
  match key with
  | [(k, AV_S s)] => if String.eqb k name then Some s else None
  | _ => None
  end.

(** A condition on an item; an attribute that is absent equals nothing.
    [None] when a placeholder has no value. *)
Fixpoint evalCond (c : CondExpr) (values : AttrList) (it : Item) : option bool :=
  match c with
  | CondEq a p =>
      match assoc p values with
      | Some v => Some (bool_decide (it !! a = Some v))
      | None => None
      end
  | CondAnd c1 c2 =>
      match evalCond c1 values it, evalCond c2 values it with
      | Some b1, Some b2 => Some (b1 && b2)
      | _, _ => None
      end
  end.

(** The assignments of a [set], left to right. *)
Fixpoint applySet (assignments : list (string * string)) (values : AttrList)
    (it : Item) : option Item :=
  match assignments with
  | [] => Some it
  | (a, p) :: rest =>
      match assoc p values with
      | Some v => applySet rest values (<[a := v]> it)
      | None => None
      end
  end.

(** What the store does with a request, when the request reaches it. *)
Definition storeGet (input : GetItemInput) (d : DynamoDB)
    : option Item * option error :=
  match keyName (gi_TableName input) with
  | None => (None, Some ResourceNotFoundException)
  | Some kn =>
      match keyOf kn (gi_Key input) with
      | None => (None, Some (ValidationException "The provided key element does not match the schema"))
      | Some k => (tableItems (gi_TableName input) d !! k, None)
      end
  end.

Definition storePut (input : PutItemInput) (d : DynamoDB)
    : option error * DynamoDB :=
  match keyName (pi_TableName input) with
  | None => (Some ResourceNotFoundException, d)
  | Some kn =>
      match pi_Item input !! kn with
      | Some (AV_S k) =>
          (None, setTableItems (pi_TableName input)
                   (<[k := pi_Item input]> (tableItems (pi_TableName input) d)) d)
      | _ => (Some (ValidationException "One of the required keys was not given a value"), d)
      end
  end.

(** An update of an absent item starts from the item that has the key
    attribute only; the condition is tested on what is stored. *)
Definition storeUpdate (input : UpdateItemInput) (d : DynamoDB)
    : option error * DynamoDB :=
  match keyName (ui_TableName input) with
  | None => (Some ResourceNotFoundException, d)
  | Some kn =>
      match keyOf kn (ui_Key input) with
      | None => (Some (ValidationException "The provided key element does not match the schema"), d)
      | Some k =>
          let stored := tableItems (ui_TableName input) d !! k in
          let cond :=
            match ui_ConditionExpression input with
            | None => Some true
            | Some c => evalCond c (ui_ExpressionAttributeValues input)
                          (default ∅ stored)
            end in
          match cond with
          | None => (Some (ValidationException "Invalid ConditionExpression"), d)
          | Some false => (Some ConditionalCheckFailedException, d)
          | Some true =>
              let '(SET assignments) := ui_UpdateExpression input in
              match applySet assignments (ui_ExpressionAttributeValues input)
                      (default {[ kn := AV_S k ]} stored) with
              | None => (Some (ValidationException "Invalid UpdateExpression"), d)
              | Some it =>
                  (None, setTableItems (ui_TableName input)
                           (<[k := it]> (tableItems (ui_TableName input) d)) d)
              end
          end
      end
  end.

(** ** The client and its environment *)

(** The failures of a call that do not come from the request itself: the
    service's own error codes and the transport.  A failed condition is not
    among them: only the store's test of a condition produces it. *)
Inductive Fault : Type :=
| InternalServerError
| ProvisionedThroughputExceededException
| RequestLimitExceeded
| RequestError (message : string).

Definition faultError (f : Fault) : error :=
  match f with
  | InternalServerError =>
      awserrError "InternalServerError" "An error occurred on the server side"
  | ProvisionedThroughputExceededException =>
      awserrError "ProvisionedThroughputExceededException"
                  "The level of configured provisioned throughput was exceeded"
  | RequestLimitExceeded =>
      awserrError "RequestLimitExceeded" "Throughput exceeds the current limit"
  | RequestError message => awserrError "RequestError" message
  end.

(** A write of another client: an item is stored under a key, or the key
    is removed. *)
Inductive Write : Type :=
| WritePut (table key : string) (it : Item)
| WriteDelete (table key : string).

Definition applyWrite (d : DynamoDB) (wr : Write) : DynamoDB :=
  match wr with
  | WritePut table key it =>
      setTableItems table (<[key := it]> (tableItems table d)) d
  | WriteDelete table key =>
      setTableItems table (delete key (tableItems table d)) d
  end.

Record Tick : Type := {
  others : list Write;
  fault : option Fault
}.

Definition interfere (t : Tick) (d : DynamoDB) : DynamoDB :=
  fold_left applyWrite (others t) d.

Inductive Request : Type :=
| ReqGetItem (input : GetItemInput)
| ReqPutItem (input : PutItemInput)
| ReqUpdateItem (input : UpdateItemInput).

(** What a run of the client acts on: the store, what the environment will
    do at the coming calls, and the requests the client has sent so far. *)
Record World : Type := {
  db : DynamoDB;
  sched : list Tick;
  trace : list Request
}.

(** A request is sent: it is logged, the other clients act, and the call
    fails or reaches the store. *)
Definition send (r : Request) (w : World) : option Fault * World :=
  match sched w with
  | [] => (None, {| db := db w; sched := []; trace := trace w ++ [r] |})
  | t :: rest =>
      (fault t,
       {| db := interfere t (db w); sched := rest; trace := trace w ++ [r] |})
  end.

(** [svc.GetItem(input)]: the item ([None] for [nil]) and the error. *)
Definition GetItem (input : GetItemInput) (w : World)
    : (option Item * option error) * World :=
  let '(f, w1) := send (ReqGetItem input) w in
  match f with
  | Some e => ((None, Some (faultError e)), w1)
  | None => (storeGet input (db w1), w1)
  end.

(** [svc.PutItem(input)]; the programs drop the output. *)
Definition PutItem (input : PutItemInput) (w : World) : option error * World :=
  let '(f, w1) := send (ReqPutItem input) w in
  match f with
  | Some e => (Some (faultError e), w1)
  | None =>
      let '(err, d) := storePut input (db w1) in
      (err, {| db := d; sched := sched w1; trace := trace w1 |})
  end.

(** [svc.UpdateItem(input)]; the programs drop the output. *)
Definition UpdateItem (input : UpdateItemInput) (w : World)
    : option error * World :=
  let '(f, w1) := send (ReqUpdateItem input) w in
  match f with
  | Some e => (Some (faultError e), w1)
  | None =>
      let '(err, d) := storeUpdate input (db w1) in
      (err, {| db := d; sched := sched w1; trace := trace w1 |})
  end.

(** ** The records, and their coding as items *)

Record Balance : Type := {
  UserID : string;
  Available : Z;
  Total : Z
}.

Record Order : Type := {
  OrderID : string;
  OrderUserID : string;
  Amount : Z;
  Status : string
}.

Definition UnmarshalTypeError (message : string) : error :=
  awserrError "UnmarshalTypeError" message.

(** A field keeps its zero value when the item has no such attribute, and
    the decoding fails on an attribute of the other type. *)
Definition unmarshalString (it : Item) (name : string) : string + error :=
  match it !! name with
  | None => inl ""
  | Some (AV_S s) => inl s
  | Some (AV_N _) =>
      inr (UnmarshalTypeError "cannot unmarshal number into Go value of type string")
  end.

Definition unmarshalFloat (it : Item) (name : string) : Z + error :=
  match it !! name with
  | None => inl 0
  | Some (AV_N n) => inl n
  | Some (AV_S _) =>
      inr (UnmarshalTypeError "cannot unmarshal string into Go value of type float64")
  end.

(** [dynamodbattribute.UnmarshalMap(item, balance)] *)
Definition UnmarshalBalance (it : Item) : Balance + error :=
  match unmarshalString it "user_id" with
  | inr e => inr e
  | inl u =>
      match unmarshalFloat it "available" with
      | inr e => inr e
      | inl a =>
          match unmarshalFloat it "total" with
          | inr e => inr e
          | inl t => inl {| UserID := u; Available := a; Total := t |}
          end
      end
  end.

(** [dynamodbattribute.UnmarshalMap(item, order)] *)
Definition UnmarshalOrder (it : Item) : Order + error :=
  match unmarshalString it "order_id" with
  | inr e => inr e
  | inl o =>
      match unmarshalString it "user_id" with
      | inr e => inr e
      | inl u =>
          match unmarshalFloat it "amount" with
          | inr e => inr e
          | inl a =>
              match unmarshalString it "status" with
              | inr e => inr e
              | inl s =>
                  inl {| OrderID := o; OrderUserID := u; Amount := a; Status := s |}
              end
          end
      end
  end.

(** The item of an order: one attribute per field, under its tag. *)
Definition MarshalOrder (o : Order) : Item :=
  <["order_id" := AV_S (OrderID o)]>
    (<["user_id" := AV_S (OrderUserID o)]>
       (<["amount" := AV_N (Amount o)]>
          (<["status" := AV_S (Status o)]> ∅))).

(** [dynamodbattribute.MarshalMap(order)]: the item and the error; the
    encoding of a struct of strings and numbers has no failing case. *)
Definition MarshalMap (o : Order) : Item * option error := (MarshalOrder o, None).

(** The item of a balance, as the table is provisioned. *)
Definition BalanceItem (b : Balance) : Item :=
  <["user_id" := AV_S (UserID b)]>
    (<["available" := AV_N (Available b)]>
       (<["total" := AV_N (Total b)]> ∅)).

(** ** FetchBalance (the same text in both programs) *)

Definition FetchBalance (userID : string) (w : World) : (Balance + error) * World :=
  let input := {| gi_TableName := "Balances";
                  gi_Key := [("user_id", AV_S userID)] |} in
  let '((result, err), w1) := GetItem input w in
  match err with
  | Some e => (inr (Errorf "failed to get item from DynamoDB: " e), w1)
  | None =>
      match result with
      | None =>
          (inr (errorString ("no item found with the given user_id: " +:+ userID)), w1)
      | Some item =>
          match UnmarshalBalance item with
          | inr e => (inr (Errorf "failed to unmarshal result item: " e), w1)
          | inl balance => (inl balance, w1)
          end
      end
  end.

(** [isConditionalCheckFailed]: the error is an [awserr.Error] with this
    code. *)
Definition isConditionalCheckFailed (err : error) : bool :=
  match err with
  | awserrError code _ => String.eqb code ErrCodeConditionalCheckFailedException
  | errorString _ => false
  end.

Definition ErrNegativeBalance : error :=
  errorString "update would result in negative balance".
Definition ErrAmountPositive : error :=
  errorString "amount must be positive".
Definition ErrAlreadySettled : error :=
  errorString "order is already settled".

Definition balanceKey (userID : string) : AttrList := [("user_id", AV_S userID)].
Definition orderKey (orderID : string) : AttrList := [("order_id", AV_S orderID)].

(** ** src/sample/cmd/sample/main.go *)

Module Sample.

(** The request of one round of [UpdateBalance]. *)
Definition updateInput (userID : string) (balance : Balance)
    (newAvailable newTotal : Z) : UpdateItemInput :=
  {| ui_TableName := "Balances";
     ui_Key := balanceKey userID;
     ui_UpdateExpression :=
       SET [("available", ":newAvailable"); ("total", ":newTotal")];
     ui_ConditionExpression :=
       Some (CondAnd (CondEq "available" ":currentAvailable")
                     (CondEq "total" ":currentTotal"));
     ui_ExpressionAttributeValues :=
       [(":newAvailable", AV_N newAvailable);
        (":newTotal", AV_N newTotal);
        (":currentAvailable", AV_N (Available balance));
        (":currentTotal", AV_N (Total balance))] |}.

(** The [for] loop has no bound; [fuel] bounds the number of rounds of the
    model, and [None] is a run that is still looping when it is used up. *)
Fixpoint UpdateBalance (fuel : nat) (userID : string)
    (availableChange totalChange : Z) (w : World)
    : option (option error * World) :=
  match fuel with
  | O => None
  | S fuel' =>
      let '(r, w1) := FetchBalance userID w in
      match r with
      | inr err => Some (Some err, w1)
      | inl balance =>
          let newAvailable := Available balance + availableChange in
          let newTotal := Total balance + totalChange in
          if ((newAvailable <? 0) || (newTotal <? 0))%Z
          then Some (Some ErrNegativeBalance, w1)
          else
            let input := updateInput userID balance newAvailable newTotal in
            let '(err, w2) := UpdateItem input w1 in
            match err with
            | Some e =>
                if isConditionalCheckFailed e
                then UpdateBalance fuel' userID availableChange totalChange w2
                else Some (Some (Errorf "failed to update item in DynamoDB: " e), w2)
            | None => Some (None, w2)
            end
      end
  end.

Definition CreateSellOrder (fuel : nat) (userID orderID : string) (amount : Z)
    (w : World) : option (option error * World) :=
  if (amount <=? 0)%Z then Some (Some ErrAmountPositive, w)
  else
    let order := {| OrderID := orderID; OrderUserID := userID;
                    Amount := amount; Status := "Pending" |} in
    let '(av, err) := MarshalMap order in
    match err with
    | Some e => Some (Some (Errorf "failed to marshal order: " e), w)
    | None =>
        let putOrderInput := {| pi_TableName := "Orders"; pi_Item := av |} in
        let '(err, w1) := PutItem putOrderInput w in
        match err with
        | Some e => Some (Some (Errorf "failed to put order in DynamoDB: " e), w1)
        | None =>
            match UpdateBalance fuel userID (- amount) (- amount) w1 with
            | None => None
            | Some (Some e, w2) =>
                Some (Some (Errorf "failed to update balance: " e), w2)
            | Some (None, w2) => Some (None, w2)
            end
        end
    end.

Definition settleInput (orderID : string) : UpdateItemInput :=
  {| ui_TableName := "Orders";
     ui_Key := orderKey orderID;
     ui_UpdateExpression := SET [("status", ":newStatus")];
     ui_ConditionExpression := None;
     ui_ExpressionAttributeValues := [(":newStatus", AV_S "Settled")] |}.

Definition Settle (orderID : string) (w : World) : option error * World :=
  let getOrderInput := {| gi_TableName := "Orders"; gi_Key := orderKey orderID |} in
  let '((orderResult, err), w1) := GetItem getOrderInput w in
  match err with
  | Some e => (Some (Errorf "failed to get order from DynamoDB: " e), w1)
  | None =>
      match orderResult with
      | None =>
          (Some (errorString ("no order found with the given order_id: " +:+ orderID)), w1)
      | Some item =>
          match UnmarshalOrder item with
          | inr e => (Some (Errorf "failed to unmarshal order: " e), w1)
          | inl order =>
              if String.eqb (Status order) "Settled"
              then (Some ErrAlreadySettled, w1)
              else
                let '(err, w2) := UpdateItem (settleInput orderID) w1 in
                match err with
                | Some e =>
                    (Some (Errorf "failed to update order status in DynamoDB: " e), w2)
                | None => (None, w2)
                end
          end
      end
  end.

End Sample.

(** ** src/cmd/main.go *)

Module Cmd.

(** The request of [UpdateBalance]: it has no [ConditionExpression]. *)
Definition updateInput (userID : string) (newAvailable newTotal : Z)
    : UpdateItemInput :=
  {| ui_TableName := "Balances";
     ui_Key := balanceKey userID;
     ui_UpdateExpression :=
       SET [("available", ":newAvailable"); ("total", ":newTotal")];
     ui_ConditionExpression := None;
     ui_ExpressionAttributeValues :=
       [(":newAvailable", AV_N newAvailable);
        (":newTotal", AV_N newTotal)] |}.

(** Every path of the body of the [for] loop ends in a [return]: the body
    runs once. *)
Definition UpdateBalance (userID : string) (amount : Z) (w : World)
    : option error * World :=
  let '(r, w1) := FetchBalance userID w in
  match r with
  | inr err => (Some err, w1)
  | inl balance =>
      let newAvailable := Available balance + amount in
      let newTotal := Total balance + amount in
      let input := updateInput userID newAvailable newTotal in
      let '(err, w2) := UpdateItem input w1 in
      match err with
      | Some e => (Some (Errorf "failed to update item in DynamoDB: " e), w2)
      | None => (None, w2)
      end
  end.

Definition CreateSellOrder (userID orderID : string) (amount : Z) (w : World)
    : option error * World :=
  if (amount <=? 0)%Z then (Some ErrAmountPositive, w)
  else
    let order := {| OrderID := orderID; OrderUserID := userID;
                    Amount := amount; Status := "Pending" |} in
    let '(av, err) := MarshalMap order in
    match err with
    | Some e => (Some (Errorf "failed to marshal order: " e), w)
    | None =>
        let putOrderInput := {| pi_TableName := "Orders"; pi_Item := av |} in
        let '(err, w1) := PutItem putOrderInput w in
        match err with
        | Some e => (Some (Errorf "failed to put order in DynamoDB: " e), w1)
        | None =>
            let '(err, w2) := UpdateBalance userID (- amount) w1 in
            match err with
            | Some e => (Some (Errorf "failed to update balance: " e), w2)
            | None => (None, w2)
            end
        end
    end.

Definition settleInput (orderID : string) : UpdateItemInput :=
  {| ui_TableName := "Orders";
     ui_Key := orderKey orderID;
     ui_UpdateExpression := SET [("status", ":newStatus")];
     ui_ConditionExpression := None;
     ui_ExpressionAttributeValues := [(":newStatus", AV_S "Settled")] |}.

Definition Settle (userID orderID : string) (w : World) : option error * World :=
  let getOrderInput := {| gi_TableName := "Orders"; gi_Key := orderKey orderID |} in
  let '((orderResult, err), w1) := GetItem getOrderInput w in
  match err with
  | Some e => (Some (Errorf "failed to get order from DynamoDB: " e), w1)
  | None =>
      match orderResult with
      | None =>
          (Some (errorString ("no order found with the given order_id: " +:+ orderID)), w1)
      | Some item =>
          match UnmarshalOrder item with
          | inr e => (Some (Errorf "failed to unmarshal order: " e), w1)
          | inl order =>
              if String.eqb (Status order) "Settled"
              then (Some ErrAlreadySettled, w1)
              else
                let '(err, w2) := UpdateItem (settleInput orderID) w1 in
                match err with
                | Some e =>
                    (Some (Errorf "failed to update order status in DynamoDB: " e), w2)
                | None =>
                    let '(err, w3) := UpdateBalance userID (- Amount order) w2 in
                    match err with
                    | Some e => (Some (Errorf "failed to update balance: " e), w3)
                    | None => (None, w3)
                    end
                end
          end
      end
  end.

End Cmd.

(** ** Views of a run *)

(** No other client writes during the ticks of [s] (calls may still fail). *)
Definition quietTick (t : Tick) : bool :=
  match others t with [] => true | _ :: _ => false end.
Definition quiet (s : list Tick) : bool := forallb quietTick s.

(** The store as the call that is sent in [w] finds it. *)
Definition arrival (w : World) : DynamoDB :=
  match sched w with
  | [] => db w
  | t :: _ => interfere t (db w)
  end.

(** The balance that is stored for a user, if it decodes. *)
Definition storedBalance (d : DynamoDB) (userID : string) : option Balance :=
  match Balances d !! userID with
  | Some it =>
      match UnmarshalBalance it with
      | inl b => Some b
      | inr _ => None
      end
  | None => None
  end.

(** The [amount] attribute that is stored for an order. *)
Definition orderAmount (d : DynamoDB) (orderID : string) : option AttributeValue :=
  match Orders d !! orderID with
  | Some it => it !! "amount"
  | None => None
  end.


Definition isWrite (r : Request) : bool :=
  match r with
  | ReqGetItem _ => false
  | ReqPutItem _ | ReqUpdateItem _ => true
  end.

(** The writes among the requests that the client has sent. *)
Definition writes (w : World) : list Request := filter (λ r, isWrite r = true) (trace w).

Definition fetchInput (userID : string) : GetItemInput :=
  {| gi_TableName := "Balances"; gi_Key := balanceKey userID |}.

(** ** Worlds, effects of the requests, and the examples *)

(** The world in which a request reaches the store. *)
Definition landed (r : Request) (w : World) : World :=
  {| db := arrival w; sched := tail (sched w); trace := trace w ++ [r] |}.

(** A store with the balance of one user, ["u1"], and no order. *)
Definition exampleStore (available total : Z) : DynamoDB :=
  {| Balances :=
       {[ "u1" := BalanceItem {| UserID := "u1"; Available := available;
                                 Total := total |} ]};
     Orders := ∅ |}.

(** A run that starts on [d] with no other client and no failure. *)
Definition calm (d : DynamoDB) : World := {| db := d; sched := []; trace := [] |}.

(** A run that starts on [d] with the given schedule. *)
Definition under (s : list Tick) (d : DynamoDB) : World :=
  {| db := d; sched := s; trace := [] |}.

(** The store after [set available = newAvailable, total = newTotal] on the
    balance item of a user. *)
Definition setBalanceFields (userID : string) (newAvailable newTotal : Z)
    (d : DynamoDB) : DynamoDB :=
  {| Balances :=
       <[userID := <["total" := AV_N newTotal]>
                     (<["available" := AV_N newAvailable]>
                        (default {[ "user_id" := AV_S userID ]}
                                 (Balances d !! userID)))]>
         (Balances d);
     Orders := Orders d |}.

(** The stored item of the user has the available and the total of
    [balance]. *)
Definition sameAsRead (d : DynamoDB) (userID : string) (balance : Balance) : Prop :=
  default ∅ (Balances d !! userID) !! "available" = Some (AV_N (Available balance))
  ∧ default ∅ (Balances d !! userID) !! "total" = Some (AV_N (Total balance)).

(** Another client stores 500 and 500 for ["u1"] just before the second
    call of the run. *)
Definition raceSchedule : list Tick :=
  [ {| others := []; fault := None |};
    {| others := [WritePut "Balances" "u1"
                    (BalanceItem {| UserID := "u1"; Available := 500; Total := 500 |})];
       fault := None |} ].

(** [n] rounds of contention on the balance of ["u1"]: the read of each
    round is left alone and, just before its write, another client stores
    a new balance ([n] and [n], then [n - 1] and [n - 1], ...). *)
Fixpoint contention (n : nat) : list Tick :=
  match n with
  | O => []
  | S n' =>
      {| others := []; fault := None |}
      :: {| others := [WritePut "Balances" "u1"
                         (BalanceItem {| UserID := "u1";
                                         Available := Z.of_nat n;
                                         Total := Z.of_nat n |})];
            fault := None |}
      :: contention n'
  end.

(** The error is a value of [fmt.Errorf]. *)
Definition isErrorString (e : error) : bool :=
  match e with
  | errorString _ => true
  | awserrError _ _ => false
  end.

(** The world after the order has been put, when the call does not fail. *)
Definition orderPut (o : Order) (w : World) : World :=
  {| db := {| Balances := Balances (arrival w);
              Orders := <[OrderID o := MarshalOrder o]> (Orders (arrival w)) |};
     sched := tail (sched w);
     trace := trace w ++ [ReqPutItem {| pi_TableName := "Orders";
                                        pi_Item := MarshalOrder o |}] |}.

Definition getOrderInput (orderID : string) : GetItemInput :=
  {| gi_TableName := "Orders"; gi_Key := orderKey orderID |}.

(** The store after [set status = "Settled"] on the item of an order. *)
Definition setSettled (orderID : string) (d : DynamoDB) : DynamoDB :=
  {| Balances := Balances d;
     Orders :=
       <[orderID := <["status" := AV_S "Settled"]>
                      (default {[ "order_id" := AV_S orderID ]}
                               (Orders d !! orderID))]>
         (Orders d) |}.

Definition withStatus (o : Order) (status : string) : Order :=
  {| OrderID := OrderID o; OrderUserID := OrderUserID o; Amount := Amount o;
     Status := status |}.

(** The store of scenario A after the order has been created: a balance of
    60 and 60 for ["u1"], and the pending order ["o1"] of 40. *)
Definition pendingOrder : Order :=
  {| OrderID := "o1"; OrderUserID := "u1"; Amount := 40; Status := "Pending" |}.

Definition storeWithOrder : DynamoDB :=
  {| Balances :=
       {[ "u1" := BalanceItem {| UserID := "u1"; Available := 60; Total := 60 |} ]};
     Orders := {[ "o1" := MarshalOrder pendingOrder ]} |}.

(** The calls that a client of the store can make, of either program. *)
Inductive Call : Type :=
| CallFetchBalance (userID : string)
| SampleUpdateBalance (userID : string) (availableChange totalChange : Z)
| SampleCreateSellOrder (userID orderID : string) (amount : Z)
| SampleSettle (orderID : string)
| CmdUpdateBalance (userID : string) (amount : Z)
| CmdCreateSellOrder (userID orderID : string) (amount : Z)
| CmdSettle (userID orderID : string).

(** The world after a call; [None] when a loop has used up [fuel]. *)
Definition call (fuel : nat) (c : Call) (w : World) : option World :=
  match c with
  | CallFetchBalance userID => Some (FetchBalance userID w).2
  | SampleUpdateBalance userID availableChange totalChange =>
      option_map snd (Sample.UpdateBalance fuel userID availableChange totalChange w)
  | SampleCreateSellOrder userID orderID amount =>
      option_map snd (Sample.CreateSellOrder fuel userID orderID amount w)
  | SampleSettle orderID => Some (Sample.Settle orderID w).2
  | CmdUpdateBalance userID amount => Some (Cmd.UpdateBalance userID amount w).2
  | CmdCreateSellOrder userID orderID amount =>
      Some (Cmd.CreateSellOrder userID orderID amount w).2
  | CmdSettle userID orderID => Some (Cmd.Settle userID orderID w).2
  end.

(** A sequence of calls, one after the other. *)
Fixpoint calls (fuel : nat) (cs : list Call) (w : World) : option World :=
  match cs with
  | [] => Some w
  | c :: rest =>
      match call fuel c w with
      | Some w1 => calls fuel rest w1
      | None => None
      end
  end.

(** The call is a [CreateSellOrder] with this order id. *)
Definition creates (orderID : string) (c : Call) : bool :=
  match c with
  | SampleCreateSellOrder _ o _ | CmdCreateSellOrder _ o _ => String.eqb o orderID
  | _ => false
  end.

(** The calls that follow the creation of ["o1"] in the example. *)
Definition laterCalls : list Call :=
  [ CmdSettle "u1" "o1";
    SampleSettle "o1";
    CmdCreateSellOrder "u1" "o2" 10;
    SampleCreateSellOrder "u1" "o3" 5;
    SampleUpdateBalance "u1" 7 7;
    CmdUpdateBalance "u1" (-3);
    CallFetchBalance "u1" ].



(** Another client stores the balance [b] for its user just before the
    second call of the run; the first call is left alone. *)
Definition raceWith (b : Balance) : list Tick :=
  [ {| others := []; fault := None |};
    {| others := [WritePut "Balances" (UserID b) (BalanceItem b)]; fault := None |} ].

(** A balance item that was provisioned without its [available]
    attribute. *)
Definition itemWithoutAvailable (userID : string) (total : Z) : Item :=
  <["user_id" := AV_S userID]> (<["total" := AV_N total]> ∅).

(** The error of a read that finds no balance. *)
Definition ErrNoBalance (userID : string) : error :=
  errorString ("no item found with the given user_id: " +:+ userID).

(** The error of a read that finds no order. *)
Definition ErrNoOrder (orderID : string) : error :=
  errorString ("no order found with the given order_id: " +:+ orderID).

(** The order that [CreateSellOrder] builds. *)
Definition newOrder (userID orderID : string) (amount : Z) : Order :=
  {| OrderID := orderID; OrderUserID := userID; Amount := amount; Status := "Pending" |}.

(** * Properties *)

(** ** The calls of the client *)

Lemma send_trace r w : trace (send r w).2 = trace w ++ [r].
Proof. unfold send. by destruct (sched w). Qed.

Lemma send_db r w : db (send r w).2 = arrival w.
Proof. unfold send, arrival. by destruct (sched w). Qed.

Lemma send_sched r w : sched (send r w).2 = tail (sched w).
Proof. unfold send. by destruct (sched w). Qed.

Lemma send_fault r w : (send r w).1 = head (sched w) ≫= fault.
Proof. unfold send. by destruct (sched w). Qed.

Lemma quiet_tail s : quiet s = true → quiet (tail s) = true.
Proof. destruct s as [|t s]; [done|]. simpl. by intros [_ ?]%andb_prop. Qed.

Lemma quiet_arrival w : quiet (sched w) = true → arrival w = db w.
Proof.
  unfold arrival. destruct (sched w) as [|t s]; [done|].
  simpl. intros [Ht _]%andb_prop. unfold quietTick in Ht.
  unfold interfere. by destruct (others t).
Qed.

Lemma sign_test_passes a t :
  0 <= a → 0 <= t → ((a <? 0) || (t <? 0))%Z = false.
Proof. intros Ha Ht. apply orb_false_iff. rewrite !Z.ltb_ge. lia. Qed.

Lemma sign_test_fails a t :
  a < 0 ∨ t < 0 → ((a <? 0) || (t <? 0))%Z = true.
Proof. intros H. apply orb_true_iff. rewrite !Z.ltb_lt. lia. Qed.

Lemma faultError_not_conflict f : isConditionalCheckFailed (faultError f) = false.
Proof. by destruct f. Qed.

Lemma GetItem_world input w : (GetItem input w).2 = (send (ReqGetItem input) w).2.
Proof. unfold GetItem. destruct (send _ w) as [[f|] w1]; by simpl. Qed.

Lemma FetchBalance_world userID w :
  (FetchBalance userID w).2 = (send (ReqGetItem (fetchInput userID)) w).2.
Proof.
  unfold FetchBalance. rewrite <- (GetItem_world (fetchInput userID) w).
  change {| gi_TableName := "Balances"; gi_Key := [("user_id", AV_S userID)] |}
    with (fetchInput userID).
  destruct (GetItem (fetchInput userID) w) as [[result [e|]] w1]; [done|].
  destruct result as [item|]; [|done].
  by destruct (UnmarshalBalance item).
Qed.

(** What [FetchBalance] returns, from what the call finds. *)
Lemma FetchBalance_result userID w :
  (FetchBalance userID w).1 =
  match head (sched w) ≫= fault with
  | Some f => inr (Errorf "failed to get item from DynamoDB: " (faultError f))
  | None =>
      match Balances (arrival w) !! userID with
      | None => inr (errorString ("no item found with the given user_id: " +:+ userID))
      | Some item =>
          match UnmarshalBalance item with
          | inr e => inr (Errorf "failed to unmarshal result item: " e)
          | inl balance => inl balance
          end
      end
  end.
Proof.
  unfold FetchBalance, GetItem.
  rewrite <- (send_fault (ReqGetItem (fetchInput userID)) w).
  rewrite <- (send_db (ReqGetItem (fetchInput userID)) w).
  change {| gi_TableName := "Balances"; gi_Key := [("user_id", AV_S userID)] |}
    with (fetchInput userID).
  destruct (send (ReqGetItem (fetchInput userID)) w) as [[f|] w1]; [done|].
  change (storeGet (fetchInput userID) (db w1))
    with (Balances (db w1) !! userID, @None error).
  simpl. destruct (Balances (db w1) !! userID) as [item|]; [|done].
  by destruct (UnmarshalBalance item).
Qed.


Lemma send_eq r w : send r w = (head (sched w) ≫= fault, landed r w).
Proof. unfold send, landed, arrival. by destruct (sched w). Qed.

Lemma FetchBalance_landed userID w :
  (FetchBalance userID w).2 = landed (ReqGetItem (fetchInput userID)) w.
Proof. by rewrite FetchBalance_world, send_eq. Qed.

Lemma UpdateItem_eq input w :
  UpdateItem input w =
  match head (sched w) ≫= fault with
  | Some f => (Some (faultError f), landed (ReqUpdateItem input) w)
  | None =>
      ((storeUpdate input (arrival w)).1,
       {| db := (storeUpdate input (arrival w)).2;
          sched := tail (sched w);
          trace := trace w ++ [ReqUpdateItem input] |})
  end.
Proof.
  unfold UpdateItem. rewrite send_eq.
  destruct (head (sched w) ≫= fault); [done|].
  simpl. by destruct (storeUpdate input (arrival w)).
Qed.

Lemma PutItem_eq input w :
  PutItem input w =
  match head (sched w) ≫= fault with
  | Some f => (Some (faultError f), landed (ReqPutItem input) w)
  | None =>
      ((storePut input (arrival w)).1,
       {| db := (storePut input (arrival w)).2;
          sched := tail (sched w);
          trace := trace w ++ [ReqPutItem input] |})
  end.
Proof.
  unfold PutItem. rewrite send_eq.
  destruct (head (sched w) ≫= fault); [done|].
  simpl. by destruct (storePut input (arrival w)).
Qed.

Lemma GetItem_eq input w :
  GetItem input w =
  match head (sched w) ≫= fault with
  | Some f => ((None, Some (faultError f)), landed (ReqGetItem input) w)
  | None => (storeGet input (arrival w), landed (ReqGetItem input) w)
  end.
Proof.
  unfold GetItem. rewrite send_eq.
  by destruct (head (sched w) ≫= fault).
Qed.

Lemma UpdateItem_trace input w :
  trace (UpdateItem input w).2 = trace w ++ [ReqUpdateItem input].
Proof. rewrite UpdateItem_eq. by destruct (head (sched w) ≫= fault). Qed.

Lemma UpdateItem_sched input w : sched (UpdateItem input w).2 = tail (sched w).
Proof. rewrite UpdateItem_eq. by destruct (head (sched w) ≫= fault). Qed.

(** The store's answer to the write of the two-delta form: the write is
    applied when both stored fields are the ones in the request, and
    is refused otherwise. *)
Lemma storeUpdate_sample userID balance newAvailable newTotal d :
  storeUpdate (Sample.updateInput userID balance newAvailable newTotal) d =
  let stored := Balances d !! userID in
  if bool_decide (default ∅ stored !! "available" = Some (AV_N (Available balance)))
     && bool_decide (default ∅ stored !! "total" = Some (AV_N (Total balance)))
  then (None,
        {| Balances :=
             <[userID := <["total" := AV_N newTotal]>
                           (<["available" := AV_N newAvailable]>
                              (default {[ "user_id" := AV_S userID ]} stored))]>
               (Balances d);
           Orders := Orders d |})
  else (Some ConditionalCheckFailedException, d).
Proof. reflexivity. Qed.

(** The store's answer to the write of the single-delta form. *)
Lemma storeUpdate_cmd userID newAvailable newTotal d :
  storeUpdate (Cmd.updateInput userID newAvailable newTotal) d =
  (None,
   {| Balances :=
        <[userID := <["total" := AV_N newTotal]>
                      (<["available" := AV_N newAvailable]>
                         (default {[ "user_id" := AV_S userID ]}
                                  (Balances d !! userID)))]>
          (Balances d);
      Orders := Orders d |}).
Proof. reflexivity. Qed.

(** The store's answer to the write of [Settle] (the same request in both
    programs). *)
Lemma storeUpdate_settle orderID d :
  storeUpdate (Sample.settleInput orderID) d =
  (None,
   {| Balances := Balances d;
      Orders :=
        <[orderID := <["status" := AV_S "Settled"]>
                       (default {[ "order_id" := AV_S orderID ]}
                                (Orders d !! orderID))]>
          (Orders d) |}).
Proof. reflexivity. Qed.

Lemma settleInput_same orderID : Cmd.settleInput orderID = Sample.settleInput orderID.
Proof. reflexivity. Qed.

Lemma storePut_order o d :
  storePut {| pi_TableName := "Orders"; pi_Item := MarshalOrder o |} d =
  (None,
   {| Balances := Balances d;
      Orders := <[OrderID o := MarshalOrder o]> (Orders d) |}).
Proof.
  unfold storePut. cbn [pi_TableName pi_Item].
  change (keyName "Orders") with (Some "order_id").
  unfold MarshalOrder at 1. by rewrite lookup_insert_eq.
Qed.

Lemma writes_app w r :
  filter (λ r, isWrite r = true) (trace w ++ [r]) =
  writes w ++ (if isWrite r then [r] else []).
Proof.
  unfold writes. rewrite filter_app. f_equal.
  destruct r; reflexivity.
Qed.

(** ** The coding of the records *)

Lemma UnmarshalBalance_BalanceItem b : UnmarshalBalance (BalanceItem b) = inl b.
Proof. by destruct b. Qed.

Lemma exampleStore_lookup a t :
  Balances (exampleStore a t) !! "u1"
  = Some (BalanceItem {| UserID := "u1"; Available := a; Total := t |}).
Proof. unfold exampleStore. cbn [Balances]. apply lookup_singleton_eq. Qed.

Lemma BalanceItem_available b : BalanceItem b !! "available" = Some (AV_N (Available b)).
Proof.
  unfold BalanceItem. rewrite lookup_insert_ne by done. apply lookup_insert_eq.
Qed.

Lemma BalanceItem_total b : BalanceItem b !! "total" = Some (AV_N (Total b)).
Proof.
  unfold BalanceItem. rewrite !lookup_insert_ne by done. apply lookup_insert_eq.
Qed.

Lemma sameAsRead_BalanceItem d userID stored balance :
  Balances d !! userID = Some (BalanceItem stored) →
  sameAsRead d userID balance
  ↔ Available stored = Available balance ∧ Total stored = Total balance.
Proof.
  intros Hd. unfold sameAsRead. rewrite Hd. simpl.
  rewrite BalanceItem_available, BalanceItem_total.
  split; intros [H1 H2]; split; congruence.
Qed.

(** ** The requests of a call *)

(** After a read that succeeded the single-delta form sends its write, with
    the values it computed. *)
Lemma cmd_sends_write userID amount w balance w1 :
  FetchBalance userID w = (inl balance, w1) →
  trace (Cmd.UpdateBalance userID amount w).2
  = trace w ++ [ReqGetItem (fetchInput userID);
                ReqUpdateItem (Cmd.updateInput userID
                                 (Available balance + amount)
                                 (Total balance + amount))].
Proof.
  intros Hfetch.
  pose proof (FetchBalance_landed userID w) as Hw1.
  rewrite Hfetch in Hw1. simpl in Hw1.
  unfold Cmd.UpdateBalance. rewrite Hfetch.
  destruct (UpdateItem _ w1) as [err w2] eqn:Hupd.
  assert (trace w2 = trace w1 ++
            [ReqUpdateItem (Cmd.updateInput userID (Available balance + amount)
                              (Total balance + amount))]) as Htr.
  { pose proof (UpdateItem_trace (Cmd.updateInput userID (Available balance + amount)
                                    (Total balance + amount)) w1) as Ht.
    by rewrite Hupd in Ht. }
  assert (trace w1 = trace w ++ [ReqGetItem (fetchInput userID)]) as Htr1
    by (by rewrite Hw1).
  destruct err; simpl; rewrite Htr, Htr1, <- app_assoc; reflexivity.
Qed.

(** ** C1 *)

(** C1, as the code has it.  Two-delta form ([Sample]): a round of
    [UpdateBalance] that reads a balance and computes a negative new
    available or a negative new total returns the negative-balance error at
    once; the world it leaves is the one the read left, so it has sent no
    write and the store is as the read found it.  Single-delta form
    ([Cmd]): there is no test of the sign; after a read that succeeds the
    write with the computed values is sent whatever their sign. *)
Theorem C1_negative_balance fuel userID availableChange totalChange amount w balance w1 :
  FetchBalance userID w = (inl balance, w1) →
  (Available balance + availableChange < 0 ∨ Total balance + totalChange < 0 →
   Sample.UpdateBalance (S fuel) userID availableChange totalChange w
     = Some (Some ErrNegativeBalance, w1)
   ∧ db w1 = arrival w
   ∧ writes w1 = writes w)
  ∧ trace (Cmd.UpdateBalance userID amount w).2
    = trace w ++ [ReqGetItem (fetchInput userID);
                  ReqUpdateItem (Cmd.updateInput userID
                                   (Available balance + amount)
                                   (Total balance + amount))].
Proof.
  intros Hfetch.
  pose proof (FetchBalance_landed userID w) as Hw1.
  rewrite Hfetch in Hw1. simpl in Hw1.
  split.
  - intros Hneg. split; [|split].
    + cbn [Sample.UpdateBalance]. rewrite Hfetch.
      by rewrite (sign_test_fails _ _ Hneg).
    + by rewrite Hw1.
    + unfold writes at 1. rewrite Hw1. cbn [trace landed].
      rewrite writes_app. cbn [isWrite]. by rewrite app_nil_r.
  - exact (cmd_sends_write userID amount w balance w1 Hfetch).
Qed.

Lemma C1_negative_balance_witness :
  let w := calm (exampleStore 10 10) in
  let balance := {| UserID := "u1"; Available := 10; Total := 10 |} in
  let w1 := landed (ReqGetItem (fetchInput "u1")) w in
  FetchBalance "u1" w = (inl balance, w1)
  ∧ (Available balance + -50 < 0 ∨ Total balance + -50 < 0)
  ∧ Sample.UpdateBalance 1 "u1" (-50) (-50) w = Some (Some ErrNegativeBalance, w1)
  ∧ db w1 = exampleStore 10 10.
Proof.
  intros w balance w1.
  assert (FetchBalance "u1" w = (inl balance, w1)) as Hfetch
    by (vm_compute; reflexivity).
  assert (Available balance + -50 < 0 ∨ Total balance + -50 < 0) as Hneg
    by (left; reflexivity).
  destruct (C1_negative_balance 0 "u1" (-50) (-50) (-50) w balance w1 Hfetch)
    as [Hsample _].
  destruct (Hsample Hneg) as (Hres & Hdb & _).
  exact (conj Hfetch (conj Hneg (conj Hres Hdb))).
Defined.

(** C1 fails for the single-delta form: on a balance of 10 and 10, a change
    of -50 makes both new values -40; the call returns no error, it has
    sent a write, and -40 and -40 are stored. *)
Lemma C1_single_delta_stores_negative :
  let w := calm (exampleStore 10 10) in
  let r := Cmd.UpdateBalance "u1" (-50) w in
  10 + -50 < 0
  ∧ r.1 = None
  ∧ r.1 ≠ Some ErrNegativeBalance
  ∧ writes r.2 = [ReqUpdateItem (Cmd.updateInput "u1" (-40) (-40))]
  ∧ storedBalance (db r.2) "u1"
    = Some {| UserID := "u1"; Available := -40; Total := -40 |}
  ∧ db r.2 ≠ db w.
Proof.
  intros w r.
  split; [reflexivity|].
  split; [vm_compute; reflexivity|].
  split; [vm_compute; discriminate|].
  split; [vm_compute; reflexivity|].
  split; [vm_compute; reflexivity|].
  intros Heq.
  assert (storedBalance (db r.2) "u1" = storedBalance (db w) "u1") as Hs
    by (by rewrite Heq).
  vm_compute in Hs. discriminate.
Qed.

(** ** C8 *)

(** C8: in both programs [CreateSellOrder] with an amount that is zero or
    negative returns the amount-must-be-positive error, and the world is
    the one it was called in: no request has been sent, so no order and no
    balance has been created, overwritten or modified. *)
Theorem C8_non_positive_amount fuel userID orderID amount w :
  amount <= 0 →
  Sample.CreateSellOrder fuel userID orderID amount w
    = Some (Some ErrAmountPositive, w)
  ∧ Cmd.CreateSellOrder userID orderID amount w = (Some ErrAmountPositive, w).
Proof.
  intros Hle. unfold Sample.CreateSellOrder, Cmd.CreateSellOrder, MarshalMap.
  by rewrite (proj2 (Z.leb_le amount 0) Hle).
Qed.

Lemma C8_non_positive_amount_witness :
  let w := calm (exampleStore 100 100) in
  -5 <= 0
  ∧ Sample.CreateSellOrder 0 "u1" "o1" (-5) w = Some (Some ErrAmountPositive, w)
  ∧ Cmd.CreateSellOrder "u1" "o1" (-5) w = (Some ErrAmountPositive, w).
Proof.
  intros w.
  assert (-5 <= 0) as Hle by lia.
  exact (conj Hle (C8_non_positive_amount 0 "u1" "o1" (-5) w Hle)).
Defined.

(** ** C2 *)

Lemma storeUpdate_sample_applied userID balance newAvailable newTotal d :
  sameAsRead d userID balance →
  storeUpdate (Sample.updateInput userID balance newAvailable newTotal) d
  = (None, setBalanceFields userID newAvailable newTotal d).
Proof.
  intros [Ha Ht]. rewrite storeUpdate_sample. cbv zeta.
  by rewrite !bool_decide_eq_true_2.
Qed.

Lemma storeUpdate_sample_refused userID balance newAvailable newTotal d :
  ¬ sameAsRead d userID balance →
  storeUpdate (Sample.updateInput userID balance newAvailable newTotal) d
  = (Some ConditionalCheckFailedException, d).
Proof.
  intros Hno. rewrite storeUpdate_sample. cbv zeta.
  destruct (bool_decide _) eqn:Ha; [|done].
  destruct (bool_decide (_ !! "total" = _)) eqn:Ht; [|done].
  apply bool_decide_eq_true_1 in Ha, Ht. by destruct Hno.
Qed.

(** One round of the two-delta form after a read that passed the test of
    the sign, when the write call itself does not fail. *)
Lemma sample_round fuel userID availableChange totalChange w balance w1 :
  FetchBalance userID w = (inl balance, w1) →
  0 <= Available balance + availableChange →
  0 <= Total balance + totalChange →
  head (sched w1) ≫= fault = None →
  let newAvailable := Available balance + availableChange in
  let newTotal := Total balance + totalChange in
  let input := Sample.updateInput userID balance newAvailable newTotal in
  (sameAsRead (arrival w1) userID balance →
   Sample.UpdateBalance (S fuel) userID availableChange totalChange w
   = Some (None,
           {| db := setBalanceFields userID newAvailable newTotal (arrival w1);
              sched := tail (sched w1);
              trace := trace w1 ++ [ReqUpdateItem input] |}))
  ∧ (¬ sameAsRead (arrival w1) userID balance →
     Sample.UpdateBalance (S fuel) userID availableChange totalChange w
     = Sample.UpdateBalance fuel userID availableChange totalChange
         (landed (ReqUpdateItem input) w1)).
Proof.
  intros Hfetch HA HT Hok newAvailable newTotal input.
  pose proof (sign_test_passes _ _ HA HT) as Hsign.
  subst newAvailable newTotal input.
  split; intros Hsame; cbn [Sample.UpdateBalance]; rewrite Hfetch, Hsign;
    rewrite UpdateItem_eq, Hok.
  - by rewrite (storeUpdate_sample_applied _ _ _ _ _ Hsame).
  - by rewrite (storeUpdate_sample_refused _ _ _ _ _ Hsame).
Qed.

(** One call of the single-delta form after a read that succeeded, when the
    write call itself does not fail. *)
Lemma cmd_round userID amount w balance w1 :
  FetchBalance userID w = (inl balance, w1) →
  head (sched w1) ≫= fault = None →
  let newAvailable := Available balance + amount in
  let newTotal := Total balance + amount in
  Cmd.UpdateBalance userID amount w
  = (None,
     {| db := setBalanceFields userID newAvailable newTotal (arrival w1);
        sched := tail (sched w1);
        trace := trace w1 ++ [ReqUpdateItem (Cmd.updateInput userID newAvailable newTotal)] |}).
Proof.
  intros Hfetch Hok newAvailable newTotal.
  subst newAvailable newTotal.
  unfold Cmd.UpdateBalance. rewrite Hfetch.
  rewrite UpdateItem_eq, Hok.
  by rewrite storeUpdate_cmd.
Qed.

(** C2, as the code has it.  In a round whose read returned [balance] (and,
    for the two-delta form, whose new values are not negative), when the
    write call is not failed by the service:
    - two-delta form ([Sample]): if the item that the write finds has the
      available and the total of [balance], the call returns no error and
      both fields are set to the new values; if either of the two differs,
      the store is left as the write found it (and the loop goes to its
      next round);
    - single-delta form ([Cmd]): the write has no condition; both fields
      are set to the new values whatever the write finds. *)
Theorem C2_conditional_write fuel userID availableChange totalChange amount w balance w1 :
  FetchBalance userID w = (inl balance, w1) →
  head (sched w1) ≫= fault = None →
  (0 <= Available balance + availableChange →
   0 <= Total balance + totalChange →
   let newAvailable := Available balance + availableChange in
   let newTotal := Total balance + totalChange in
   let input := Sample.updateInput userID balance newAvailable newTotal in
   ui_ConditionExpression input
     = Some (CondAnd (CondEq "available" ":currentAvailable")
                     (CondEq "total" ":currentTotal"))
   ∧ (sameAsRead (arrival w1) userID balance →
      Sample.UpdateBalance (S fuel) userID availableChange totalChange w
      = Some (None,
              {| db := setBalanceFields userID newAvailable newTotal (arrival w1);
                 sched := tail (sched w1);
                 trace := trace w1 ++ [ReqUpdateItem input] |}))
   ∧ (¬ sameAsRead (arrival w1) userID balance →
      Sample.UpdateBalance (S fuel) userID availableChange totalChange w
      = Sample.UpdateBalance fuel userID availableChange totalChange
          {| db := arrival w1;
             sched := tail (sched w1);
             trace := trace w1 ++ [ReqUpdateItem input] |}))
  ∧ (let newAvailable := Available balance + amount in
     let newTotal := Total balance + amount in
     let input := Cmd.updateInput userID newAvailable newTotal in
     ui_ConditionExpression input = None
     ∧ Cmd.UpdateBalance userID amount w
       = (None,
          {| db := setBalanceFields userID newAvailable newTotal (arrival w1);
             sched := tail (sched w1);
             trace := trace w1 ++ [ReqUpdateItem input] |})).
Proof.
  intros Hfetch Hok. split.
  - intros HA HT newAvailable newTotal input.
    split; [reflexivity|].
    exact (sample_round fuel userID availableChange totalChange w balance w1
             Hfetch HA HT Hok).
  - intros newAvailable newTotal input. split; [reflexivity|].
    exact (cmd_round userID amount w balance w1 Hfetch Hok).
Qed.

Lemma C2_conditional_write_witness :
  let w := calm (exampleStore 100 100) in
  let balance := {| UserID := "u1"; Available := 100; Total := 100 |} in
  let w1 := landed (ReqGetItem (fetchInput "u1")) w in
  (FetchBalance "u1" w = (inl balance, w1)
   ∧ head (sched w1) ≫= fault = None
   ∧ 0 <= Available balance + 5
   ∧ 0 <= Total balance + 5
   ∧ sameAsRead (arrival w1) "u1" balance)
  ∧ Sample.UpdateBalance 1 "u1" 5 5 w
    = Some (None,
            {| db := setBalanceFields "u1" 105 105 (arrival w1);
               sched := [];
               trace := trace w1
                        ++ [ReqUpdateItem (Sample.updateInput "u1" balance 105 105)] |})
  ∧ Cmd.UpdateBalance "u1" 5 w
    = (None,
       {| db := setBalanceFields "u1" 105 105 (arrival w1);
          sched := [];
          trace := trace w1 ++ [ReqUpdateItem (Cmd.updateInput "u1" 105 105)] |}).
Proof.
  intros w balance w1.
  assert (FetchBalance "u1" w = (inl balance, w1)) as Hfetch
    by (vm_compute; reflexivity).
  assert (head (sched w1) ≫= fault = None) as Hok by reflexivity.
  assert (0 <= Available balance + 5) as HA by (simpl; lia).
  assert (0 <= Total balance + 5) as HT by (simpl; lia).
  assert (sameAsRead (arrival w1) "u1" balance) as Hsame
    by (by apply (sameAsRead_BalanceItem _ _ _ _ (exampleStore_lookup 100 100))).
  destruct (C2_conditional_write 0 "u1" 5 5 5 w balance w1 Hfetch Hok)
    as [Hsample [_ Hcmd]].
  destruct (Hsample HA HT) as (_ & Happlied & _).
  exact (conj (conj Hfetch (conj Hok (conj HA (conj HT Hsame))))
              (conj (Happlied Hsame) Hcmd)).
Defined.

(** C2 fails for the single-delta form: the call reads 100 and 100, another
    client then stores 500 and 500, and the write of the call is applied
    all the same: 105 and 105 are stored although neither stored field
    equals the value that was read. *)
Lemma C2_single_delta_write_applies_on_changed_record :
  let w := under raceSchedule (exampleStore 100 100) in
  let read := FetchBalance "u1" w in
  let r := Cmd.UpdateBalance "u1" 5 w in
  read.1 = inl {| UserID := "u1"; Available := 100; Total := 100 |}
  ∧ storedBalance (arrival read.2) "u1"
    = Some {| UserID := "u1"; Available := 500; Total := 500 |}
  ∧ r.1 = None
  ∧ storedBalance (db r.2) "u1"
    = Some {| UserID := "u1"; Available := 105; Total := 105 |}.
Proof. vm_compute. repeat split. Qed.

(** ** C3 *)

Lemma FetchBalance_quiet userID w :
  head (sched w) ≫= fault = None →
  FetchBalance userID w
  = (match Balances (arrival w) !! userID with
     | None => inr (errorString ("no item found with the given user_id: " +:+ userID))
     | Some item =>
         match UnmarshalBalance item with
         | inr e => inr (Errorf "failed to unmarshal result item: " e)
         | inl balance => inl balance
         end
     end, landed (ReqGetItem (fetchInput userID)) w).
Proof.
  intros Hok.
  rewrite (surjective_pairing (FetchBalance userID w)).
  by rewrite FetchBalance_result, FetchBalance_landed, Hok.
Qed.

(** Under [contention n] the two-delta form is still looping after [n]
    rounds, and returns with success in round [n + 1], having sent [n + 1]
    reads and [n + 1] writes. *)
Lemma sample_retries n : ∀ a tr,
  Z.of_nat n < a →
  Sample.UpdateBalance n "u1" 1 1
    {| db := exampleStore a a; sched := contention n; trace := tr |} = None
  ∧ ∃ w', Sample.UpdateBalance (S n) "u1" 1 1
            {| db := exampleStore a a; sched := contention n; trace := tr |}
          = Some (None, w')
        ∧ length (trace w') = (length tr + 2 * S n)%nat.
Proof.
  induction n as [|n IH]; intros a tr Ha.
  - split; [reflexivity|].
    set (w := {| db := exampleStore a a; sched := contention 0; trace := tr |}).
    assert (FetchBalance "u1" w
            = (inl {| UserID := "u1"; Available := a; Total := a |},
               landed (ReqGetItem (fetchInput "u1")) w)) as Hfetch.
    { rewrite FetchBalance_quiet by done.
      change (arrival w) with (exampleStore a a).
      by rewrite exampleStore_lookup, UnmarshalBalance_BalanceItem. }
    destruct (sample_round 0 "u1" 1 1 w _ _ Hfetch) as [Hgo _];
      [simpl; lia | simpl; lia | done |].
    eexists. split.
    + apply Hgo.
      apply (sameAsRead_BalanceItem _ _ _ _ (exampleStore_lookup a a)). done.
    + cbn [trace landed w]. rewrite !length_app. simpl. lia.
  - set (w := {| db := exampleStore a a; sched := contention (S n); trace := tr |}).
    assert (FetchBalance "u1" w
            = (inl {| UserID := "u1"; Available := a; Total := a |},
               landed (ReqGetItem (fetchInput "u1")) w)) as Hfetch.
    { rewrite FetchBalance_quiet by done.
      change (arrival w) with (exampleStore a a).
      by rewrite exampleStore_lookup, UnmarshalBalance_BalanceItem. }
    set (w1 := landed (ReqGetItem (fetchInput "u1")) w) in *.
    assert (arrival w1 = exampleStore (Z.of_nat (S n)) (Z.of_nat (S n))) as Harr.
    { unfold arrival, w1, landed, w. cbn [sched contention tail db arrival].
      unfold interfere. cbn [others fold_left applyWrite].
      unfold exampleStore, setTableItems, tableItems.
      cbn [String.eqb Ascii.eqb Bool.eqb Balances Orders].
      by rewrite insert_singleton_eq. }
    assert (¬ sameAsRead (arrival w1) "u1"
                {| UserID := "u1"; Available := a; Total := a |}) as Hdiff.
    { rewrite Harr.
      rewrite (sameAsRead_BalanceItem _ _ _ _ (exampleStore_lookup _ _)).
      cbn [Available Total]. lia. }
    set (tr' := (tr ++ [ReqGetItem (fetchInput "u1")])
                ++ [ReqUpdateItem
                      (Sample.updateInput "u1"
                         {| UserID := "u1"; Available := a; Total := a |}
                         (a + 1) (a + 1))]).
    assert (∀ fuel, Sample.UpdateBalance (S fuel) "u1" 1 1 w
                    = Sample.UpdateBalance fuel "u1" 1 1
                        {| db := exampleStore (Z.of_nat (S n)) (Z.of_nat (S n));
                           sched := contention n;
                           trace := tr' |}) as Hstep.
    { intros fuel.
      destruct (sample_round fuel "u1" 1 1 w _ _ Hfetch) as [_ Hretry];
        [simpl; lia | simpl; lia | done |].
      rewrite (Hretry Hdiff). unfold landed at 1. by rewrite Harr. }
    destruct (IH (Z.of_nat (S n)) tr') as [Hnone (w' & Hret & Hlen)]; [lia|].
    split; [by rewrite Hstep|].
    exists w'. split; [by rewrite Hstep|].
    rewrite Hlen. unfold tr'. rewrite !length_app. simpl. lia.
Qed.

Lemma isErrorString_not_conflict e :
  isErrorString e = true → isConditionalCheckFailed e = false.
Proof. by destruct e. Qed.

Lemma FetchBalance_inr userID w e w1 :
  FetchBalance userID w = (inr e, w1) → isErrorString e = true.
Proof.
  intros H. pose proof (FetchBalance_result userID w) as Hr.
  rewrite H in Hr. simpl in Hr.
  destruct (head (sched w) ≫= fault); [by simplify_eq|].
  destruct (Balances (arrival w) !! userID) as [item|]; [|by simplify_eq].
  destruct (UnmarshalBalance item); by simplify_eq.
Qed.

(** Every error that the two-delta form returns was made by [fmt.Errorf]. *)
Lemma sample_UpdateBalance_error fuel : ∀ userID availableChange totalChange w e w',
  Sample.UpdateBalance fuel userID availableChange totalChange w = Some (Some e, w') →
  isErrorString e = true.
Proof.
  induction fuel as [|fuel IH]; intros userID availableChange totalChange w e w' H;
    [done|].
  cbn [Sample.UpdateBalance] in H.
  destruct (FetchBalance userID w) as [[balance|err] w1] eqn:Hfetch.
  - destruct ((Available balance + availableChange <? 0)
              || (Total balance + totalChange <? 0))%Z; [by simplify_eq|].
    destruct (UpdateItem _ w1) as [[e2|] w2]; [|done].
    destruct (isConditionalCheckFailed e2); [by eapply IH|by simplify_eq].
  - simplify_eq. by eapply FetchBalance_inr.
Qed.

(** Every error that the single-delta form returns was made by
    [fmt.Errorf]. *)
Lemma cmd_UpdateBalance_error userID amount w e :
  (Cmd.UpdateBalance userID amount w).1 = Some e → isErrorString e = true.
Proof.
  unfold Cmd.UpdateBalance.
  destruct (FetchBalance userID w) as [[balance|err] w1] eqn:Hfetch.
  - destruct (UpdateItem _ w1) as [[e2|] w2]; simpl; intros; by simplify_eq.
  - simpl. intros; simplify_eq. by eapply FetchBalance_inr.
Qed.

(** The single-delta form sends one read and at most one write. *)
Lemma cmd_UpdateBalance_trace userID amount w :
  ∃ balance,
    trace (Cmd.UpdateBalance userID amount w).2
    = trace w ++ [ReqGetItem (fetchInput userID)]
    ∨ trace (Cmd.UpdateBalance userID amount w).2
      = trace w ++ [ReqGetItem (fetchInput userID);
                    ReqUpdateItem (Cmd.updateInput userID
                                     (Available balance + amount)
                                     (Total balance + amount))].
Proof.
  destruct (FetchBalance userID w) as [[balance|err] w1] eqn:Hfetch.
  - exists balance. right.
    exact (cmd_sends_write userID amount w balance w1 Hfetch).
  - exists {| UserID := ""; Available := 0; Total := 0 |}. left.
    unfold Cmd.UpdateBalance. rewrite Hfetch. simpl.
    pose proof (FetchBalance_landed userID w) as Hw1. rewrite Hfetch in Hw1.
    simpl in Hw1. by rewrite Hw1.
Qed.

(** C3, as the code has it.
    Two-delta form ([Sample]): (1) when the record that the write finds
    is not the one that was read, the store refuses the write as a failed
    condition and the call goes on with its next round, which starts with
    the read; (2) the number of such rounds has no bound: for every
    [n] there is a run that is still looping after [n] rounds and returns
    with success in round [n + 1], after [n + 1] reads and [n + 1] writes;
    (3) no error that the call returns is a failed condition.
    Single-delta form ([Cmd]): (4) the write has no condition and there is
    no retry: a call sends one read and at most one write; no error that
    the call returns is a failed condition. *)
Theorem C3_conflict_absorbed :
  (∀ fuel userID availableChange totalChange w balance w1,
     FetchBalance userID w = (inl balance, w1) →
     0 <= Available balance + availableChange →
     0 <= Total balance + totalChange →
     head (sched w1) ≫= fault = None →
     ¬ sameAsRead (arrival w1) userID balance →
     let input := Sample.updateInput userID balance
                    (Available balance + availableChange)
                    (Total balance + totalChange) in
     UpdateItem input w1
     = (Some ConditionalCheckFailedException, landed (ReqUpdateItem input) w1)
     ∧ Sample.UpdateBalance (S fuel) userID availableChange totalChange w
       = Sample.UpdateBalance fuel userID availableChange totalChange
           (landed (ReqUpdateItem input) w1))
  ∧ (∀ n, ∃ w w',
       Sample.UpdateBalance n "u1" 1 1 w = None
       ∧ Sample.UpdateBalance (S n) "u1" 1 1 w = Some (None, w')
       ∧ length (trace w') = (length (trace w) + 2 * S n)%nat)
  ∧ (∀ fuel userID availableChange totalChange w e w',
       Sample.UpdateBalance fuel userID availableChange totalChange w
       = Some (Some e, w') →
       isConditionalCheckFailed e = false)
  ∧ (∀ userID amount w,
       ui_ConditionExpression (Cmd.updateInput userID 0 0) = None
       ∧ (length (trace (Cmd.UpdateBalance userID amount w).2)
          ≤ length (trace w) + 2)%nat
       ∧ ∀ e, (Cmd.UpdateBalance userID amount w).1 = Some e →
              isConditionalCheckFailed e = false).
Proof.
  split; [|split; [|split]].
  - intros fuel userID availableChange totalChange w balance w1
      Hfetch HA HT Hok Hdiff input. split.
    + rewrite UpdateItem_eq, Hok. unfold input.
      by rewrite (storeUpdate_sample_refused _ _ _ _ _ Hdiff).
    + by destruct (sample_round fuel userID availableChange totalChange w balance w1
                     Hfetch HA HT Hok) as [_ Hretry]; apply Hretry.
  - intros n.
    destruct (sample_retries n (Z.of_nat n + 1) []) as [Hnone (w' & Hret & Hlen)];
      [lia|].
    by exists {| db := exampleStore (Z.of_nat n + 1) (Z.of_nat n + 1);
                 sched := contention n; trace := [] |}, w'.
  - intros fuel userID availableChange totalChange w e w' H.
    apply isErrorString_not_conflict.
    by eapply sample_UpdateBalance_error.
  - intros userID amount w. split; [reflexivity|]. split.
    + destruct (cmd_UpdateBalance_trace userID amount w) as [balance [-> | ->]];
        rewrite length_app; simpl; lia.
    + intros e H. apply isErrorString_not_conflict.
      by eapply cmd_UpdateBalance_error.
Qed.

(** C3 fails for the single-delta form.  Under [raceSchedule] another
    client changes the record between the read and the write of the call.
    The two-delta form has its write refused, goes back to the read and
    stores 505 and 505 after two reads and two writes; the single-delta
    form does not restart: it sends one read and one write and stores 105
    and 105 over the 500 and 500 of the other client. *)
Lemma C3_single_delta_does_not_restart :
  let w := under raceSchedule (exampleStore 100 100) in
  let sample := Sample.UpdateBalance 2 "u1" 5 5 w in
  let cmd := Cmd.UpdateBalance "u1" 5 w in
  (option_map fst sample = Some None
   ∧ option_map (λ r, map isWrite (trace r.2)) sample
     = Some [false; true; false; true]
   ∧ option_map (λ r, storedBalance (db r.2) "u1") sample
     = Some (Some {| UserID := "u1"; Available := 505; Total := 505 |}))
  ∧ (cmd.1 = None
     ∧ map isWrite (trace cmd.2) = [false; true]
     ∧ storedBalance (db cmd.2) "u1"
       = Some {| UserID := "u1"; Available := 105; Total := 105 |}).
Proof. vm_compute. repeat split. Qed.

(** ** Runs in which no other client writes *)

Lemma quiet_landed r w :
  quiet (sched w) = true →
  db (landed r w) = db w ∧ quiet (sched (landed r w)) = true.
Proof.
  intros Hq. unfold landed. cbn [db sched].
  split; [by apply quiet_arrival | by apply quiet_tail].
Qed.





(** ** C7 *)




(** ** C4 *)

Lemma set_BalanceItem b newAvailable newTotal :
  <["total" := AV_N newTotal]> (<["available" := AV_N newAvailable]> (BalanceItem b))
  = BalanceItem {| UserID := UserID b; Available := newAvailable; Total := newTotal |}.
Proof.
  unfold BalanceItem. cbn [UserID Available Total].
  apply map_eq. intros k. rewrite !lookup_insert.
  repeat case_decide; by simplify_eq.
Qed.

Lemma setBalanceFields_lookup d userID newAvailable newTotal b :
  Balances d !! userID = Some (BalanceItem b) →
  Balances (setBalanceFields userID newAvailable newTotal d) !! userID
  = Some (BalanceItem {| UserID := UserID b; Available := newAvailable;
                         Total := newTotal |}).
Proof.
  intros H. unfold setBalanceFields. cbn [Balances].
  rewrite lookup_insert_eq, H. simpl. by rewrite set_BalanceItem.
Qed.


Lemma PutItem_order o w :
  PutItem {| pi_TableName := "Orders"; pi_Item := MarshalOrder o |} w
  = match head (sched w) ≫= fault with
    | Some f =>
        (Some (faultError f),
         landed (ReqPutItem {| pi_TableName := "Orders"; pi_Item := MarshalOrder o |}) w)
    | None => (None, orderPut o w)
    end.
Proof.
  rewrite PutItem_eq. destruct (head (sched w) ≫= fault); [done|].
  by rewrite storePut_order.
Qed.







(** ** Settle *)

Lemma UnmarshalOrder_MarshalOrder o : UnmarshalOrder (MarshalOrder o) = inl o.
Proof. by destruct o. Qed.

Lemma set_status_MarshalOrder o status :
  <["status" := AV_S status]> (MarshalOrder o) = MarshalOrder (withStatus o status).
Proof.
  unfold MarshalOrder, withStatus. cbn [OrderID OrderUserID Amount Status].
  apply map_eq. intros k. rewrite !lookup_insert.
  repeat case_decide; by simplify_eq.
Qed.

Lemma MarshalOrder_status o : MarshalOrder o !! "status" = Some (AV_S (Status o)).
Proof.
  unfold MarshalOrder. rewrite !lookup_insert_ne by done. apply lookup_insert_eq.
Qed.

Lemma MarshalOrder_amount o : MarshalOrder o !! "amount" = Some (AV_N (Amount o)).
Proof.
  unfold MarshalOrder. rewrite !lookup_insert_ne by done. apply lookup_insert_eq.
Qed.

(** The status test and the status write of [Settle] (the text that the two
    programs share), from the read on. *)
Lemma sample_Settle_eq orderID w :
  Sample.Settle orderID w =
  let w1 := landed (ReqGetItem (getOrderInput orderID)) w in
  match head (sched w) ≫= fault with
  | Some f => (Some (Errorf "failed to get order from DynamoDB: " (faultError f)), w1)
  | None =>
      match Orders (arrival w) !! orderID with
      | None =>
          (Some (errorString ("no order found with the given order_id: " +:+ orderID)), w1)
      | Some item =>
          match UnmarshalOrder item with
          | inr e => (Some (Errorf "failed to unmarshal order: " e), w1)
          | inl order =>
              if String.eqb (Status order) "Settled"
              then (Some ErrAlreadySettled, w1)
              else
                match head (sched w1) ≫= fault with
                | Some f =>
                    (Some (Errorf "failed to update order status in DynamoDB: "
                             (faultError f)),
                     landed (ReqUpdateItem (Sample.settleInput orderID)) w1)
                | None =>
                    (None,
                     {| db := setSettled orderID (arrival w1);
                        sched := tail (sched w1);
                        trace := trace w1 ++ [ReqUpdateItem (Sample.settleInput orderID)] |})
                end
          end
      end
  end.
Proof.
  unfold Sample.Settle. fold (getOrderInput orderID). rewrite GetItem_eq. cbv zeta.
  destruct (head (sched w) ≫= fault) as [f|]; [done|].
  change (storeGet (getOrderInput orderID) (arrival w))
    with (Orders (arrival w) !! orderID, @None error).
  cbv iota beta.
  destruct (Orders (arrival w) !! orderID) as [item|]; [|done].
  destruct (UnmarshalOrder item) as [order|e]; [|done].
  destruct (String.eqb (Status order) "Settled"); [done|].
  rewrite UpdateItem_eq.
  destruct (head (sched (landed _ w)) ≫= fault); [done|].
  by rewrite storeUpdate_settle.
Qed.

Lemma cmd_Settle_eq userID orderID w :
  Cmd.Settle userID orderID w =
  let w1 := landed (ReqGetItem (getOrderInput orderID)) w in
  match head (sched w) ≫= fault with
  | Some f => (Some (Errorf "failed to get order from DynamoDB: " (faultError f)), w1)
  | None =>
      match Orders (arrival w) !! orderID with
      | None =>
          (Some (errorString ("no order found with the given order_id: " +:+ orderID)), w1)
      | Some item =>
          match UnmarshalOrder item with
          | inr e => (Some (Errorf "failed to unmarshal order: " e), w1)
          | inl order =>
              if String.eqb (Status order) "Settled"
              then (Some ErrAlreadySettled, w1)
              else
                match head (sched w1) ≫= fault with
                | Some f =>
                    (Some (Errorf "failed to update order status in DynamoDB: "
                             (faultError f)),
                     landed (ReqUpdateItem (Sample.settleInput orderID)) w1)
                | None =>
                    let r := Cmd.UpdateBalance userID (- Amount order)
                               {| db := setSettled orderID (arrival w1);
                                  sched := tail (sched w1);
                                  trace := trace w1
                                           ++ [ReqUpdateItem (Sample.settleInput orderID)] |} in
                    (match r.1 with
                     | Some e => Some (Errorf "failed to update balance: " e)
                     | None => None
                     end, r.2)
                end
          end
      end
  end.
Proof.
  unfold Cmd.Settle. fold (getOrderInput orderID). rewrite GetItem_eq. cbv zeta.
  destruct (head (sched w) ≫= fault) as [f|]; [done|].
  change (storeGet (getOrderInput orderID) (arrival w))
    with (Orders (arrival w) !! orderID, @None error).
  cbv iota beta.
  destruct (Orders (arrival w) !! orderID) as [item|]; [|done].
  destruct (UnmarshalOrder item) as [order|e]; [|done].
  destruct (String.eqb (Status order) "Settled"); [done|].
  rewrite settleInput_same, UpdateItem_eq.
  destruct (head (sched (landed _ w)) ≫= fault); [done|].
  rewrite storeUpdate_settle. cbn [fst snd].
  destruct (Cmd.UpdateBalance _ _ _) as [[e|] w3]; done.
Qed.

Lemma calm_head w : sched w = [] → head (sched w) ≫= fault = None.
Proof. by intros ->. Qed.

Lemma calm_arrival w : sched w = [] → arrival w = db w.
Proof. unfold arrival. by intros ->. Qed.

Lemma calm_landed r w : sched w = [] → sched (landed r w) = [].
Proof. unfold landed. cbn [sched]. by intros ->. Qed.

Lemma setSettled_lookup orderID d order :
  Orders d !! orderID = Some (MarshalOrder order) →
  Orders (setSettled orderID d) !! orderID
  = Some (MarshalOrder (withStatus order "Settled")).
Proof.
  intros H. unfold setSettled. cbn [Orders].
  rewrite lookup_insert_eq, H. simpl. by rewrite set_status_MarshalOrder.
Qed.


(** [Settle] of a settled order, with no other client and no failure: the
    error, after the read only. *)
Lemma Settle_settled_calm userID orderID order w :
  sched w = [] →
  Orders (db w) !! orderID = Some (MarshalOrder order) →
  Status order = "Settled" →
  Sample.Settle orderID w
  = (Some ErrAlreadySettled,
     {| db := db w; sched := [];
        trace := trace w ++ [ReqGetItem (getOrderInput orderID)] |})
  ∧ Cmd.Settle userID orderID w
    = (Some ErrAlreadySettled,
       {| db := db w; sched := [];
          trace := trace w ++ [ReqGetItem (getOrderInput orderID)] |}).
Proof.
  intros Hs Horder Hsettled.
  rewrite sample_Settle_eq, cmd_Settle_eq. cbv zeta.
  rewrite (calm_head w Hs), (calm_arrival w Hs), Horder, UnmarshalOrder_MarshalOrder.
  rewrite Hsettled. cbn [String.eqb Ascii.eqb Bool.eqb].
  unfold landed. cbn [db trace]. by rewrite (calm_arrival w Hs), Hs.
Qed.


(** ** C5 *)



(** ** C6 *)





(** ** What a call leaves alone, when no other client writes *)

Lemma UpdateItem_quiet input w :
  quiet (sched w) = true →
  quiet (sched (UpdateItem input w).2) = true
  ∧ (db (UpdateItem input w).2 = db w
     ∨ db (UpdateItem input w).2 = (storeUpdate input (db w)).2).
Proof.
  intros Hq. rewrite UpdateItem_eq.
  destruct (head (sched w) ≫= fault).
  - destruct (quiet_landed (ReqUpdateItem input) w Hq) as [Hdb Hq1]. by split; [|left].
  - cbn [snd sched db]. split; [by apply quiet_tail|].
    right. by rewrite (quiet_arrival w Hq).
Qed.

Lemma FetchBalance_frame userID w :
  quiet (sched w) = true →
  quiet (sched (FetchBalance userID w).2) = true
  ∧ db (FetchBalance userID w).2 = db w.
Proof.
  intros Hq. rewrite FetchBalance_landed.
  by destruct (quiet_landed (ReqGetItem (fetchInput userID)) w Hq).
Qed.

(** The balance calls leave the orders alone. *)
Lemma sample_UpdateBalance_frame fuel : ∀ userID availableChange totalChange w r w',
  quiet (sched w) = true →
  Sample.UpdateBalance fuel userID availableChange totalChange w = Some (r, w') →
  quiet (sched w') = true ∧ Orders (db w') = Orders (db w).
Proof.
  induction fuel as [|fuel IH]; intros userID availableChange totalChange w r w' Hq H;
    [done|].
  cbn [Sample.UpdateBalance] in H.
  destruct (FetchBalance_frame userID w Hq) as [Hq1 Hdb1].
  destruct (FetchBalance userID w) as [[balance|err] w1] eqn:Hfetch;
    cbn [snd] in Hq1, Hdb1.
  - destruct ((Available balance + availableChange <? 0)
              || (Total balance + totalChange <? 0))%Z.
    { simplify_eq. by rewrite Hdb1. }
    set (input := Sample.updateInput userID balance _ _) in H.
    destruct (UpdateItem_quiet input w1 Hq1) as [Hq2 Hdb2].
    assert (Orders (db (UpdateItem input w1).2) = Orders (db w)) as Hord.
    { destruct Hdb2 as [-> | ->]; [by rewrite Hdb1|].
      unfold input. rewrite storeUpdate_sample. cbv zeta.
      destruct (_ && _); cbn [snd Orders]; by rewrite Hdb1. }
    destruct (UpdateItem input w1) as [[e|] w2]; cbn [snd] in Hq2, Hord.
    + destruct (isConditionalCheckFailed e).
      * destruct (IH _ _ _ _ _ _ Hq2 H) as [Hq' Hord']. split; [done|congruence].
      * by simplify_eq.
    + by simplify_eq.
  - simplify_eq. by rewrite Hdb1.
Qed.

Lemma cmd_UpdateBalance_frame userID amount w :
  quiet (sched w) = true →
  quiet (sched (Cmd.UpdateBalance userID amount w).2) = true
  ∧ Orders (db (Cmd.UpdateBalance userID amount w).2) = Orders (db w).
Proof.
  intros Hq. unfold Cmd.UpdateBalance.
  destruct (FetchBalance_frame userID w Hq) as [Hq1 Hdb1].
  destruct (FetchBalance userID w) as [[balance|err] w1] eqn:Hfetch;
    cbn [snd] in Hq1, Hdb1.
  - set (input := Cmd.updateInput userID _ _).
    destruct (UpdateItem_quiet input w1 Hq1) as [Hq2 Hdb2].
    assert (Orders (db (UpdateItem input w1).2) = Orders (db w)) as Hord.
    { destruct Hdb2 as [-> | ->]; [by rewrite Hdb1|].
      unfold input. rewrite storeUpdate_cmd. cbn [snd Orders]. by rewrite Hdb1. }
    destruct (UpdateItem input w1) as [[e|] w2]; by cbn [snd] in *.
  - cbn [snd]. by rewrite Hdb1.
Qed.

(** Putting an order leaves the other orders alone. *)
Lemma PutItem_order_frame o w :
  quiet (sched w) = true →
  let r := PutItem {| pi_TableName := "Orders"; pi_Item := MarshalOrder o |} w in
  quiet (sched r.2) = true
  ∧ Balances (db r.2) = Balances (db w)
  ∧ (∀ orderID, orderID ≠ OrderID o → Orders (db r.2) !! orderID = Orders (db w) !! orderID)
  ∧ (r.1 = None → Orders (db r.2) !! OrderID o = Some (MarshalOrder o)).
Proof.
  intros Hq. cbv zeta. rewrite PutItem_order.
  destruct (head (sched w) ≫= fault).
  - destruct (quiet_landed (ReqPutItem {| pi_TableName := "Orders";
                                          pi_Item := MarshalOrder o |}) w Hq)
      as [Hdb Hq1].
    cbn [fst snd]. rewrite Hdb. by repeat split.
  - cbn [fst snd]. unfold orderPut. cbn [db sched Balances Orders].
    rewrite (quiet_arrival w Hq).
    split; [by apply quiet_tail|]. split; [done|]. split.
    + intros orderID Hne. by rewrite lookup_insert_ne.
    + intros _. apply lookup_insert_eq.
Qed.

Lemma orderAmount_ext d d' orderID :
  Orders d' !! orderID = Orders d !! orderID →
  orderAmount d' orderID = orderAmount d orderID.
Proof. unfold orderAmount. by intros ->. Qed.

(** The status write of [Settle] leaves every amount alone. *)
Lemma setSettled_amount settled d orderID :
  orderAmount (setSettled settled d) orderID = orderAmount d orderID.
Proof.
  unfold orderAmount, setSettled. cbn [Orders].
  destruct (decide (settled = orderID)) as [->|Hne].
  - rewrite lookup_insert_eq, lookup_insert_ne by done.
    destruct (Orders d !! orderID) as [item|]; [done|].
    simpl. by rewrite lookup_singleton_ne.
  - by rewrite lookup_insert_ne.
Qed.

(** ** C9 *)

Lemma sample_CreateSellOrder_frame fuel userID created amount w r w' orderID :
  quiet (sched w) = true →
  created ≠ orderID →
  Sample.CreateSellOrder fuel userID created amount w = Some (r, w') →
  quiet (sched w') = true ∧ orderAmount (db w') orderID = orderAmount (db w) orderID.
Proof.
  intros Hq Hne. unfold Sample.CreateSellOrder, MarshalMap.
  destruct (amount <=? 0)%Z; [by intros; simplify_eq|].
  set (order := {| OrderID := created; OrderUserID := userID; Amount := amount;
                   Status := "Pending" |}).
  destruct (PutItem_order_frame order w Hq) as (Hq1 & _ & Hother & _).
  destruct (PutItem _ w) as [[e|] w1]; cbn [snd] in Hq1, Hother.
  - intros; simplify_eq. split; [done|]. apply orderAmount_ext. by apply Hother.
  - destruct (Sample.UpdateBalance fuel userID (- amount) (- amount) w1)
      as [[r2 w2]|] eqn:Hupd; [|done].
    destruct (sample_UpdateBalance_frame _ _ _ _ _ _ _ Hq1 Hupd) as [Hq2 Hord].
    intros H.
    assert (w' = w2) as -> by (destruct r2; by simplify_eq).
    split; [done|]. apply orderAmount_ext. rewrite Hord. by apply Hother.
Qed.

Lemma cmd_CreateSellOrder_frame userID created amount w orderID :
  quiet (sched w) = true →
  created ≠ orderID →
  quiet (sched (Cmd.CreateSellOrder userID created amount w).2) = true
  ∧ orderAmount (db (Cmd.CreateSellOrder userID created amount w).2) orderID
    = orderAmount (db w) orderID.
Proof.
  intros Hq Hne. unfold Cmd.CreateSellOrder, MarshalMap.
  destruct (amount <=? 0)%Z; [done|].
  set (order := {| OrderID := created; OrderUserID := userID; Amount := amount;
                   Status := "Pending" |}).
  destruct (PutItem_order_frame order w Hq) as (Hq1 & _ & Hother & _).
  destruct (PutItem _ w) as [[e|] w1]; cbn [snd] in Hq1, Hother.
  - cbn [snd]. split; [done|]. apply orderAmount_ext. by apply Hother.
  - destruct (cmd_UpdateBalance_frame userID (- amount) w1 Hq1) as [Hq2 Hord].
    destruct (Cmd.UpdateBalance userID (- amount) w1) as [[e|] w2];
      cbn [snd] in *; (split; [done|]); apply orderAmount_ext; rewrite Hord;
      by apply Hother.
Qed.

Lemma sample_Settle_frame settled w orderID :
  quiet (sched w) = true →
  quiet (sched (Sample.Settle settled w).2) = true
  ∧ orderAmount (db (Sample.Settle settled w).2) orderID = orderAmount (db w) orderID.
Proof.
  intros Hq. rewrite sample_Settle_eq. cbv zeta.
  destruct (quiet_landed (ReqGetItem (getOrderInput settled)) w Hq) as [Hdb1 Hq1].
  set (w1 := landed (ReqGetItem (getOrderInput settled)) w) in *.
  assert (quiet (sched w1) = true ∧ orderAmount (db w1) orderID = orderAmount (db w) orderID)
    as Hw1 by (by rewrite Hdb1).
  destruct (head (sched w) ≫= fault); [done|].
  destruct (Orders (arrival w) !! settled) as [item|]; [|done].
  destruct (UnmarshalOrder item) as [order|e]; [|done].
  destruct (String.eqb (Status order) "Settled"); [done|].
  destruct (head (sched w1) ≫= fault).
  - cbn [snd]. destruct (quiet_landed (ReqUpdateItem (Sample.settleInput settled)) w1 Hq1)
      as [Hdb2 Hq2].
    by rewrite Hdb2, Hdb1.
  - cbn [snd db sched]. split; [by apply quiet_tail|].
    by rewrite setSettled_amount, (quiet_arrival w1 Hq1), Hdb1.
Qed.

Lemma cmd_Settle_frame userID settled w orderID :
  quiet (sched w) = true →
  quiet (sched (Cmd.Settle userID settled w).2) = true
  ∧ orderAmount (db (Cmd.Settle userID settled w).2) orderID = orderAmount (db w) orderID.
Proof.
  intros Hq. rewrite cmd_Settle_eq. cbv zeta.
  destruct (quiet_landed (ReqGetItem (getOrderInput settled)) w Hq) as [Hdb1 Hq1].
  set (w1 := landed (ReqGetItem (getOrderInput settled)) w) in *.
  assert (quiet (sched w1) = true ∧ orderAmount (db w1) orderID = orderAmount (db w) orderID)
    as Hw1 by (by rewrite Hdb1).
  destruct (head (sched w) ≫= fault); [done|].
  destruct (Orders (arrival w) !! settled) as [item|]; [|done].
  destruct (UnmarshalOrder item) as [order|e]; [|done].
  destruct (String.eqb (Status order) "Settled"); [done|].
  destruct (head (sched w1) ≫= fault).
  - cbn [snd]. destruct (quiet_landed (ReqUpdateItem (Sample.settleInput settled)) w1 Hq1)
      as [Hdb2 Hq2].
    by rewrite Hdb2, Hdb1.
  - cbn [snd].
    set (w2 := {| db := setSettled settled (arrival w1); sched := tail (sched w1);
                  trace := _ |}).
    assert (quiet (sched w2) = true) as Hq2 by (by apply quiet_tail).
    destruct (cmd_UpdateBalance_frame userID (- Amount order) w2 Hq2) as [Hq3 Hord].
    split; [done|].
    unfold orderAmount at 1. rewrite Hord.
    change (orderAmount (db w2) orderID = orderAmount (db w) orderID).
    unfold w2. cbn [db].
    by rewrite setSettled_amount, (quiet_arrival w1 Hq1), Hdb1.
Qed.

Lemma creates_false orderID created :
  String.eqb created orderID = false → created ≠ orderID.
Proof. intros H ->. by rewrite String.eqb_refl in H. Qed.

(** A call that does not create the order leaves its amount alone. *)
Lemma call_frame fuel c w w' orderID :
  quiet (sched w) = true →
  creates orderID c = false →
  call fuel c w = Some w' →
  quiet (sched w') = true ∧ orderAmount (db w') orderID = orderAmount (db w) orderID.
Proof.
  intros Hq Hc H. destruct c; cbn [call creates] in H, Hc.
  - simplify_eq. destruct (FetchBalance_frame userID w Hq) as [? Hdb].
    by rewrite Hdb.
  - destruct (Sample.UpdateBalance _ _ _ _ _) as [[r w2]|] eqn:Hupd; [|done].
    cbn in H. simplify_eq.
    destruct (sample_UpdateBalance_frame _ _ _ _ _ _ _ Hq Hupd) as [? Hord].
    split; [done|]. unfold orderAmount. by rewrite Hord.
  - destruct (Sample.CreateSellOrder _ _ _ _ _) as [[r w2]|] eqn:Hcr; [|done].
    cbn in H. simplify_eq.
    by eapply sample_CreateSellOrder_frame; [| apply creates_false |].
  - simplify_eq. by apply sample_Settle_frame.
  - simplify_eq. destruct (cmd_UpdateBalance_frame userID amount w Hq) as [? Hord].
    split; [done|]. unfold orderAmount. by rewrite Hord.
  - simplify_eq. apply cmd_CreateSellOrder_frame; [done|by apply creates_false].
  - simplify_eq. by apply cmd_Settle_frame.
Qed.

Lemma calls_frame fuel cs : ∀ w w' orderID,
  quiet (sched w) = true →
  forallb (λ c, negb (creates orderID c)) cs = true →
  calls fuel cs w = Some w' →
  quiet (sched w') = true ∧ orderAmount (db w') orderID = orderAmount (db w) orderID.
Proof.
  induction cs as [|c cs IH]; intros w w' orderID Hq Hcs H.
  - cbn in H. by simplify_eq.
  - cbn [calls] in H. cbn [forallb] in Hcs.
    apply andb_prop in Hcs as [Hc Hcs]. apply negb_true_iff in Hc.
    destruct (call fuel c w) as [w1|] eqn:Hcall; [|done].
    destruct (call_frame fuel c w w1 orderID Hq Hc Hcall) as [Hq1 Ham1].
    destruct (IH w1 w' orderID Hq1 Hcs H) as [Hq' Ham'].
    split; [done|congruence].
Qed.

Lemma sample_CreateSellOrder_created fuel userID orderID amount w w' :
  quiet (sched w) = true →
  Sample.CreateSellOrder fuel userID orderID amount w = Some (None, w') →
  quiet (sched w') = true ∧ orderAmount (db w') orderID = Some (AV_N amount).
Proof.
  intros Hq. unfold Sample.CreateSellOrder, MarshalMap.
  destruct (amount <=? 0)%Z; [done|].
  set (order := {| OrderID := orderID; OrderUserID := userID; Amount := amount;
                   Status := "Pending" |}).
  destruct (PutItem_order_frame order w Hq) as (Hq1 & _ & _ & Hput).
  destruct (PutItem _ w) as [[e|] w1]; cbn [fst snd] in Hq1, Hput; [done|].
  destruct (Sample.UpdateBalance fuel userID (- amount) (- amount) w1)
    as [[r2 w2]|] eqn:Hupd; [|done].
  destruct (sample_UpdateBalance_frame _ _ _ _ _ _ _ Hq1 Hupd) as [Hq2 Hord].
  destruct r2; [done|]. intros [= <-]. split; [done|].
  pose proof (Hput eq_refl) as Hstored. unfold order in Hstored.
  cbn [OrderID] in Hstored.
  unfold orderAmount. rewrite Hord, Hstored. apply MarshalOrder_amount.
Qed.

Lemma cmd_CreateSellOrder_created userID orderID amount w w' :
  quiet (sched w) = true →
  Cmd.CreateSellOrder userID orderID amount w = (None, w') →
  quiet (sched w') = true ∧ orderAmount (db w') orderID = Some (AV_N amount).
Proof.
  intros Hq. unfold Cmd.CreateSellOrder, MarshalMap.
  destruct (amount <=? 0)%Z; [done|].
  set (order := {| OrderID := orderID; OrderUserID := userID; Amount := amount;
                   Status := "Pending" |}).
  destruct (PutItem_order_frame order w Hq) as (Hq1 & _ & _ & Hput).
  destruct (PutItem _ w) as [[e|] w1]; cbn [fst snd] in Hq1, Hput; [done|].
  destruct (cmd_UpdateBalance_frame userID (- amount) w1 Hq1) as [Hq2 Hord].
  destruct (Cmd.UpdateBalance userID (- amount) w1) as [[e|] w2];
    cbn [snd] in Hq2, Hord; [done|].
  intros [= <-]. split; [done|].
  pose proof (Hput eq_refl) as Hstored. unfold order in Hstored.
  cbn [OrderID] in Hstored.
  unfold orderAmount. rewrite Hord, Hstored. apply MarshalOrder_amount.
Qed.

(** C9: in a run where no other client writes, once [CreateSellOrder] of
    either program has returned no error for the order id, the stored
    amount of that order is the amount of the call, and it is still that
    amount after any sequence of calls of either program ([FetchBalance],
    [UpdateBalance], [CreateSellOrder] with another order id, [Settle] of
    this or another order) that returns.  The update of [Settle] names the
    status attribute only. *)
Theorem C9_amount_immutable fuel userID orderID amount cs w w1 w2 :
  quiet (sched w) = true →
  Sample.CreateSellOrder fuel userID orderID amount w = Some (None, w1)
  ∨ Cmd.CreateSellOrder userID orderID amount w = (None, w1) →
  forallb (λ c, negb (creates orderID c)) cs = true →
  calls fuel cs w1 = Some w2 →
  orderAmount (db w1) orderID = Some (AV_N amount)
  ∧ orderAmount (db w2) orderID = Some (AV_N amount)
  ∧ ui_UpdateExpression (Sample.settleInput orderID) = SET [("status", ":newStatus")]
  ∧ ui_UpdateExpression (Cmd.settleInput orderID) = SET [("status", ":newStatus")].
Proof.
  intros Hq Hcreate Hcs Hcalls.
  assert (quiet (sched w1) = true ∧ orderAmount (db w1) orderID = Some (AV_N amount))
    as [Hq1 Ham1].
  { destruct Hcreate as [H|H].
    - by eapply sample_CreateSellOrder_created.
    - by eapply cmd_CreateSellOrder_created. }
  destruct (calls_frame fuel cs w1 w2 orderID Hq1 Hcs Hcalls) as [_ Ham2].
  split; [done|]. split; [congruence|]. by split.
Qed.

Lemma C9_amount_immutable_witness :
  let w := calm (exampleStore 100 100) in
  let w1 := (Cmd.CreateSellOrder "u1" "o1" 40 w).2 in
  let w2 := default w1 (calls 1 laterCalls w1) in
  (quiet (sched w) = true
   ∧ Cmd.CreateSellOrder "u1" "o1" 40 w = (None, w1)
   ∧ forallb (λ c, negb (creates "o1" c)) laterCalls = true
   ∧ calls 1 laterCalls w1 = Some w2)
  ∧ orderAmount (db w1) "o1" = Some (AV_N 40)
  ∧ orderAmount (db w2) "o1" = Some (AV_N 40).
Proof.
  intros w w1 w2.
  assert (quiet (sched w) = true) as Hq by reflexivity.
  assert (Cmd.CreateSellOrder "u1" "o1" 40 w = (None, w1)) as Hcreate
    by (vm_compute; reflexivity).
  assert (forallb (λ c, negb (creates "o1" c)) laterCalls = true) as Hcs
    by reflexivity.
  assert (calls 1 laterCalls w1 = Some w2) as Hcalls
    by (vm_compute; reflexivity).
  destruct (C9_amount_immutable 1 "u1" "o1" 40 laterCalls w w1 w2
              Hq (or_intror Hcreate) Hcs Hcalls) as (H1 & H2 & _).
  exact (conj (conj Hq (conj Hcreate (conj Hcs Hcalls))) (conj H1 H2)).
Defined.

(** ** C10 *)








(** * Further properties of the code *)

(** ** FetchBalance *)

Lemma FetchBalance_writes userID w :
  writes (FetchBalance userID w).2 = writes w
  ∧ db (FetchBalance userID w).2 = arrival w
  ∧ trace (FetchBalance userID w).2 = trace w ++ [ReqGetItem (fetchInput userID)].
Proof.
  rewrite FetchBalance_landed. unfold writes at 1, landed. cbn [trace db].
  rewrite writes_app. cbn [isWrite]. by rewrite app_nil_r.
Qed.

(** X1: [FetchBalance] for a user that has no record, when the read is not
    failed by the service, returns the no-item error that names the user;
    it has sent the one read and no write, and the store is as the read
    found it. *)
Theorem X1_FetchBalance_missing userID w :
  head (sched w) ≫= fault = None →
  Balances (arrival w) !! userID = None →
  (FetchBalance userID w).1 = inr (ErrNoBalance userID)
  ∧ trace (FetchBalance userID w).2 = trace w ++ [ReqGetItem (fetchInput userID)]
  ∧ writes (FetchBalance userID w).2 = writes w
  ∧ db (FetchBalance userID w).2 = arrival w.
Proof.
  intros Hok Hnone.
  destruct (FetchBalance_writes userID w) as (Hw & Hdb & Htr).
  split; [|done].
  by rewrite (FetchBalance_quiet userID w Hok), Hnone.
Qed.

Lemma X1_FetchBalance_missing_witness :
  let w := calm (exampleStore 100 100) in
  (head (sched w) ≫= fault = None ∧ Balances (arrival w) !! "u2" = None)
  ∧ (FetchBalance "u2" w).1 = inr (ErrNoBalance "u2")
  ∧ db (FetchBalance "u2" w).2 = arrival w.
Proof.
  intros w.
  assert (head (sched w) ≫= fault = None) as Hok by reflexivity.
  assert (Balances (arrival w) !! "u2" = None) as Hnone by (vm_compute; reflexivity).
  destruct (X1_FetchBalance_missing "u2" w Hok Hnone) as (Hr & _ & _ & Hdb).
  exact (conj (conj Hok Hnone) (conj Hr Hdb)).
Defined.

(** X2: [FetchBalance] reads back the balance that is stored: when the
    item that the read finds is the item of a balance [b] and the read is
    not failed by the service, the result is [b]; and whatever it returns,
    [FetchBalance] sends no write. *)
Theorem X2_FetchBalance_reads_back userID b w :
  head (sched w) ≫= fault = None →
  Balances (arrival w) !! userID = Some (BalanceItem b) →
  (FetchBalance userID w).1 = inl b
  ∧ writes (FetchBalance userID w).2 = writes w
  ∧ db (FetchBalance userID w).2 = arrival w.
Proof.
  intros Hok Hitem.
  destruct (FetchBalance_writes userID w) as (Hw & Hdb & _).
  split; [|done].
  by rewrite (FetchBalance_quiet userID w Hok), Hitem, UnmarshalBalance_BalanceItem.
Qed.

Lemma X2_FetchBalance_reads_back_witness :
  let w := calm (exampleStore 100 70) in
  let b := {| UserID := "u1"; Available := 100; Total := 70 |} in
  (head (sched w) ≫= fault = None
   ∧ Balances (arrival w) !! "u1" = Some (BalanceItem b))
  ∧ (FetchBalance "u1" w).1 = inl b.
Proof.
  intros w b.
  assert (head (sched w) ≫= fault = None) as Hok by reflexivity.
  assert (Balances (arrival w) !! "u1" = Some (BalanceItem b)) as Hitem
    by (vm_compute; reflexivity).
  destruct (X2_FetchBalance_reads_back "u1" b w Hok Hitem) as (Hr & _).
  exact (conj (conj Hok Hitem) Hr).
Defined.

(** ** isConditionalCheckFailed *)


(** ** UpdateBalance: the errors that end the call *)

(** X4: [UpdateBalance] of either program for a user that has no record,
    when the read is not failed by the service, returns the no-item error
    of [FetchBalance] as it is; it sends no write, so the update (which
    would create the item) creates nothing. *)
Theorem X4_UpdateBalance_missing fuel userID availableChange totalChange amount w :
  head (sched w) ≫= fault = None →
  Balances (arrival w) !! userID = None →
  let w1 := landed (ReqGetItem (fetchInput userID)) w in
  Sample.UpdateBalance (S fuel) userID availableChange totalChange w
    = Some (Some (ErrNoBalance userID), w1)
  ∧ Cmd.UpdateBalance userID amount w = (Some (ErrNoBalance userID), w1)
  ∧ db w1 = arrival w
  ∧ writes w1 = writes w.
Proof.
  intros Hok Hnone w1.
  assert (FetchBalance userID w = (inr (ErrNoBalance userID), w1)) as Hfetch
    by (by rewrite (FetchBalance_quiet userID w Hok), Hnone).
  destruct (FetchBalance_writes userID w) as (Hw & Hdb & _).
  rewrite Hfetch in Hw, Hdb. cbn [snd] in Hw, Hdb.
  cbn [Sample.UpdateBalance]. unfold Cmd.UpdateBalance. by rewrite Hfetch.
Qed.

Lemma X4_UpdateBalance_missing_witness :
  let w := calm (exampleStore 100 100) in
  let w1 := landed (ReqGetItem (fetchInput "u2")) w in
  (head (sched w) ≫= fault = None ∧ Balances (arrival w) !! "u2" = None)
  ∧ Sample.UpdateBalance 1 "u2" 5 5 w = Some (Some (ErrNoBalance "u2"), w1)
  ∧ Cmd.UpdateBalance "u2" 5 w = (Some (ErrNoBalance "u2"), w1)
  ∧ db w1 = arrival w.
Proof.
  intros w w1.
  assert (head (sched w) ≫= fault = None) as Hok by reflexivity.
  assert (Balances (arrival w) !! "u2" = None) as Hnone by (vm_compute; reflexivity).
  destruct (X4_UpdateBalance_missing 0 "u2" 5 5 5 w Hok Hnone) as (Hs & Hc & Hdb & _).
  exact (conj (conj Hok Hnone) (conj Hs (conj Hc Hdb))).
Defined.

(** X5: in the two-delta form a failure of the write that is not a failed
    condition ends the call: after a read that succeeded and new values
    that are not negative, when the service fails the write call, the call
    returns the failed-to-update error in that same round (it does not
    retry), and the store is as the write call found it. *)
Theorem X5_write_failure_is_final fuel userID availableChange totalChange w balance w1 f :
  FetchBalance userID w = (inl balance, w1) →
  0 <= Available balance + availableChange →
  0 <= Total balance + totalChange →
  head (sched w1) ≫= fault = Some f →
  ∃ w2,
    Sample.UpdateBalance (S fuel) userID availableChange totalChange w
    = Some (Some (Errorf "failed to update item in DynamoDB: " (faultError f)), w2)
    ∧ db w2 = arrival w1
    ∧ length (trace w2) = (length (trace w) + 2)%nat.
Proof.
  intros Hfetch HA HT Hf.
  eexists. split.
  - cbn [Sample.UpdateBalance]. rewrite Hfetch, (sign_test_passes _ _ HA HT).
    rewrite UpdateItem_eq, Hf. by rewrite faultError_not_conflict.
  - split; [done|].
    destruct (FetchBalance_writes userID w) as (_ & _ & Htr).
    rewrite Hfetch in Htr. cbn [snd] in Htr.
    unfold landed. cbn [trace]. rewrite Htr, !length_app. simpl. lia.
Qed.

Lemma X5_write_failure_is_final_witness :
  let w := under [ {| others := []; fault := None |};
                   {| others := []; fault := Some InternalServerError |} ]
                 (exampleStore 100 100) in
  let balance := {| UserID := "u1"; Available := 100; Total := 100 |} in
  let w1 := landed (ReqGetItem (fetchInput "u1")) w in
  (FetchBalance "u1" w = (inl balance, w1)
   ∧ 0 <= Available balance + 5
   ∧ 0 <= Total balance + 5
   ∧ head (sched w1) ≫= fault = Some InternalServerError)
  ∧ ∃ w2,
      Sample.UpdateBalance 1 "u1" 5 5 w
      = Some (Some (Errorf "failed to update item in DynamoDB: "
                      (faultError InternalServerError)), w2)
      ∧ db w2 = arrival w1
      ∧ length (trace w2) = (length (trace w) + 2)%nat.
Proof.
  intros w balance w1.
  assert (FetchBalance "u1" w = (inl balance, w1)) as Hfetch
    by (vm_compute; reflexivity).
  assert (0 <= Available balance + 5) as HA by (simpl; lia).
  assert (0 <= Total balance + 5) as HT by (simpl; lia).
  assert (head (sched w1) ≫= fault = Some InternalServerError) as Hf by reflexivity.
  exact (conj (conj Hfetch (conj HA (conj HT Hf)))
              (X5_write_failure_is_final 0 "u1" 5 5 w balance w1 InternalServerError
                 Hfetch HA HT Hf)).
Defined.

(** ** UpdateBalance next to other clients *)

Lemma setBalanceFields_fields userID newAvailable newTotal d :
  ∃ it, Balances (setBalanceFields userID newAvailable newTotal d) !! userID = Some it
        ∧ it !! "available" = Some (AV_N newAvailable)
        ∧ it !! "total" = Some (AV_N newTotal).
Proof.
  unfold setBalanceFields. cbn [Balances]. eexists. split; [apply lookup_insert_eq|].
  split.
  - rewrite lookup_insert_ne by done. apply lookup_insert_eq.
  - apply lookup_insert_eq.
Qed.

Lemma setBalanceFields_other userID newAvailable newTotal d other :
  other ≠ userID →
  Balances (setBalanceFields userID newAvailable newTotal d) !! other
  = Balances d !! other.
Proof. intros Hne. unfold setBalanceFields. cbn [Balances]. by rewrite lookup_insert_ne. Qed.

Lemma conflict_is_conflict :
  isConditionalCheckFailed ConditionalCheckFailedException = true.
Proof. reflexivity. Qed.

(** X6: whatever the other clients do and whichever calls fail, when the
    two-delta form returns no error the balance item of the user is stored
    with an available and a total that are not negative. *)
Theorem X6_success_leaves_no_negative fuel : ∀ userID availableChange totalChange w w',
  Sample.UpdateBalance fuel userID availableChange totalChange w = Some (None, w') →
  ∃ it a t,
    Balances (db w') !! userID = Some it
    ∧ it !! "available" = Some (AV_N a)
    ∧ it !! "total" = Some (AV_N t)
    ∧ 0 <= a ∧ 0 <= t.
Proof.
  induction fuel as [|fuel IH]; intros userID availableChange totalChange w w' H;
    [done|].
  cbn [Sample.UpdateBalance] in H.
  destruct (FetchBalance userID w) as [[balance|err] w1]; [|done].
  destruct ((Available balance + availableChange <? 0)
            || (Total balance + totalChange <? 0))%Z eqn:Hsign; [done|].
  apply orb_false_iff in Hsign as [HA HT]. apply Z.ltb_ge in HA, HT.
  rewrite UpdateItem_eq in H.
  destruct (head (sched w1) ≫= fault) as [f|].
  { by rewrite faultError_not_conflict in H. }
  rewrite storeUpdate_sample in H. cbv zeta in H.
  destruct (_ && _).
  - cbn [fst snd] in H. injection H as <-. cbn [db].
    destruct (setBalanceFields_fields userID (Available balance + availableChange)
                (Total balance + totalChange) (arrival w1)) as (it & Hit & Ha & Ht).
    by exists it, (Available balance + availableChange), (Total balance + totalChange).
  - cbn [fst snd] in H. rewrite conflict_is_conflict in H. by eapply IH.
Qed.

Lemma X6_success_leaves_no_negative_witness :
  let w := under raceSchedule (exampleStore 100 100) in
  let w' := default w (option_map snd (Sample.UpdateBalance 2 "u1" (-100) (-100) w)) in
  Sample.UpdateBalance 2 "u1" (-100) (-100) w = Some (None, w')
  ∧ ∃ it a t,
      Balances (db w') !! "u1" = Some it
      ∧ it !! "available" = Some (AV_N a)
      ∧ it !! "total" = Some (AV_N t)
      ∧ 0 <= a ∧ 0 <= t.
Proof.
  intros w w'.
  assert (Sample.UpdateBalance 2 "u1" (-100) (-100) w = Some (None, w')) as H
    by (vm_compute; reflexivity).
  exact (conj H (X6_success_leaves_no_negative 2 "u1" (-100) (-100) w w' H)).
Defined.

Lemma race_arrival b d tr :
  let w := {| db := d; sched := raceWith b; trace := tr |} in
  let w1 := landed (ReqGetItem (fetchInput (UserID b))) w in
  arrival w = d
  ∧ head (sched w) ≫= fault = None
  ∧ head (sched w1) ≫= fault = None
  ∧ arrival w1 = {| Balances := <[UserID b := BalanceItem b]> (Balances d);
                    Orders := Orders d |}
  ∧ tail (sched w1) = [].
Proof. by repeat split. Qed.



(** X8: the single-delta form loses the update of another client.  In the
    same race the call returns no error after its one write, and the
    stored balance is the record that the call had read plus its amount:
    what the other client stored is overwritten. *)
Theorem X8_cmd_overwrites_other_update
    userID available total available' total' amount d tr :
  Balances d !! userID
  = Some (BalanceItem {| UserID := userID; Available := available; Total := total |}) →
  let other := {| UserID := userID; Available := available'; Total := total' |} in
  let r := Cmd.UpdateBalance userID amount
             {| db := d; sched := raceWith other; trace := tr |} in
  r.1 = None
  ∧ Balances (db r.2) !! userID
    = Some (BalanceItem {| UserID := userID; Available := available + amount;
                           Total := total + amount |})
  ∧ length (trace r.2) = (length tr + 2)%nat.
Proof.
  intros Hbal other.
  set (read := {| UserID := userID; Available := available; Total := total |}) in *.
  set (w := {| db := d; sched := raceWith other; trace := tr |}).
  destruct (race_arrival other d tr) as (Harr & Hok & Hok1 & Harr1 & Htail).
  cbv zeta in Harr, Hok, Hok1, Harr1, Htail. fold w in Harr, Hok, Hok1, Harr1, Htail.
  change (UserID other) with userID in *.
  set (w1 := landed (ReqGetItem (fetchInput userID)) w) in *.
  assert (FetchBalance userID w = (inl read, w1)) as Hfetch.
  { rewrite (FetchBalance_quiet userID w Hok). fold w1.
    by rewrite Harr, Hbal, UnmarshalBalance_BalanceItem. }
  assert (Balances (arrival w1) !! userID = Some (BalanceItem other)) as Hother.
  { rewrite Harr1. cbn [Balances]. apply lookup_insert_eq. }
  cbv zeta. rewrite (cmd_round userID amount w read w1 Hfetch Hok1).
  cbn [fst snd db trace]. split; [done|]. split.
  - by rewrite (setBalanceFields_lookup _ _ _ _ _ Hother).
  - unfold w1, landed. cbn [trace]. rewrite !length_app. simpl. lia.
Qed.

Lemma X8_cmd_overwrites_other_update_witness :
  let d := exampleStore 100 100 in
  let r := Cmd.UpdateBalance "u1" 5
             {| db := d;
                sched := raceWith {| UserID := "u1"; Available := 500; Total := 500 |};
                trace := [] |} in
  Balances d !! "u1"
  = Some (BalanceItem {| UserID := "u1"; Available := 100; Total := 100 |})
  ∧ r.1 = None
  ∧ Balances (db r.2) !! "u1"
    = Some (BalanceItem {| UserID := "u1"; Available := 100 + 5; Total := 100 + 5 |}).
Proof.
  intros d r.
  assert (Balances d !! "u1"
          = Some (BalanceItem {| UserID := "u1"; Available := 100; Total := 100 |}))
    as Hbal by (vm_compute; reflexivity).
  destruct (X8_cmd_overwrites_other_update "u1" 100 100 500 500 5 d [] Hbal)
    as (Hr & Hstored & _).
  exact (conj Hbal (conj Hr Hstored)).
Defined.

(** ** UpdateBalance: what it leaves alone, and when it returns *)

Lemma storeUpdate_sample_others userID balance newAvailable newTotal d other :
  other ≠ userID →
  Balances (storeUpdate (Sample.updateInput userID balance newAvailable newTotal) d).2
    !! other
  = Balances d !! other.
Proof.
  intros Hne. rewrite storeUpdate_sample. cbv zeta.
  destruct (_ && _); cbn [snd Balances]; [|done]. by rewrite lookup_insert_ne.
Qed.

Lemma sample_UpdateBalance_others fuel :
  ∀ userID availableChange totalChange w r w' other,
  quiet (sched w) = true →
  other ≠ userID →
  Sample.UpdateBalance fuel userID availableChange totalChange w = Some (r, w') →
  Balances (db w') !! other = Balances (db w) !! other.
Proof.
  induction fuel as [|fuel IH];
    intros userID availableChange totalChange w r w' other Hq Hne H; [done|].
  cbn [Sample.UpdateBalance] in H.
  destruct (FetchBalance_frame userID w Hq) as [Hq1 Hdb1].
  destruct (FetchBalance userID w) as [[balance|err] w1] eqn:Hfetch;
    cbn [snd] in Hq1, Hdb1.
  - destruct ((Available balance + availableChange <? 0)
              || (Total balance + totalChange <? 0))%Z.
    { simplify_eq. by rewrite Hdb1. }
    set (input := Sample.updateInput userID balance _ _) in H.
    destruct (UpdateItem_quiet input w1 Hq1) as [Hq2 Hdb2].
    assert (Balances (db (UpdateItem input w1).2) !! other = Balances (db w) !! other)
      as Hbal.
    { destruct Hdb2 as [-> | ->]; [by rewrite Hdb1|].
      unfold input. rewrite storeUpdate_sample_others by done. by rewrite Hdb1. }
    destruct (UpdateItem input w1) as [[e|] w2]; cbn [snd] in Hq2, Hbal.
    + destruct (isConditionalCheckFailed e).
      * rewrite <- Hbal. by eapply IH.
      * by simplify_eq.
    + by simplify_eq.
  - simplify_eq. by rewrite Hdb1.
Qed.

Lemma cmd_UpdateBalance_others userID amount w other :
  quiet (sched w) = true →
  other ≠ userID →
  Balances (db (Cmd.UpdateBalance userID amount w).2) !! other
  = Balances (db w) !! other.
Proof.
  intros Hq Hne. unfold Cmd.UpdateBalance.
  destruct (FetchBalance_frame userID w Hq) as [Hq1 Hdb1].
  destruct (FetchBalance userID w) as [[balance|err] w1] eqn:Hfetch;
    cbn [snd] in Hq1, Hdb1.
  - set (input := Cmd.updateInput userID _ _).
    destruct (UpdateItem_quiet input w1 Hq1) as [Hq2 Hdb2].
    assert (Balances (db (UpdateItem input w1).2) !! other = Balances (db w) !! other)
      as Hbal.
    { destruct Hdb2 as [-> | ->]; [by rewrite Hdb1|].
      unfold input. rewrite storeUpdate_cmd. cbn [snd Balances].
      rewrite lookup_insert_ne by done. by rewrite Hdb1. }
    by destruct (UpdateItem input w1) as [[e|] w2].
  - cbn [snd]. by rewrite Hdb1.
Qed.

(** X9: in a run where no other client writes, [UpdateBalance] of either
    program, whatever it returns, leaves every order and the balance item
    of every other user as they were. *)
Theorem X9_UpdateBalance_touches_one_item
    fuel userID availableChange totalChange amount w other :
  quiet (sched w) = true →
  other ≠ userID →
  (∀ r w', Sample.UpdateBalance fuel userID availableChange totalChange w = Some (r, w') →
           Orders (db w') = Orders (db w)
           ∧ Balances (db w') !! other = Balances (db w) !! other)
  ∧ Orders (db (Cmd.UpdateBalance userID amount w).2) = Orders (db w)
  ∧ Balances (db (Cmd.UpdateBalance userID amount w).2) !! other
    = Balances (db w) !! other.
Proof.
  intros Hq Hne. split; [|split].
  - intros r w' H. split.
    + by destruct (sample_UpdateBalance_frame _ _ _ _ _ _ _ Hq H).
    + by eapply sample_UpdateBalance_others.
  - by destruct (cmd_UpdateBalance_frame userID amount w Hq).
  - by apply cmd_UpdateBalance_others.
Qed.

Lemma X9_UpdateBalance_touches_one_item_witness :
  let d := {| Balances :=
                <["u2" := BalanceItem {| UserID := "u2"; Available := 7; Total := 9 |}]>
                  (Balances storeWithOrder);
              Orders := Orders storeWithOrder |} in
  let w := calm d in
  (quiet (sched w) = true ∧ "u2" ≠ "u1")
  ∧ Orders (db (Cmd.UpdateBalance "u1" 5 w).2) = Orders d
  ∧ Balances (db (Cmd.UpdateBalance "u1" 5 w).2) !! "u2" = Balances d !! "u2".
Proof.
  intros d w.
  assert (quiet (sched w) = true) as Hq by reflexivity.
  assert ("u2" ≠ "u1") as Hne by discriminate.
  destruct (X9_UpdateBalance_touches_one_item 1 "u1" 5 5 5 w "u2" Hq Hne)
    as (_ & Hord & Hbal).
  exact (conj (conj Hq Hne) (conj Hord Hbal)).
Defined.

(** X10: the two-delta form never returns on a record that lacks one of
    the two fields.  The decoding reads an absent field as 0, the
    condition of the write compares the stored field with that 0, and an
    absent field equals nothing: with no other client and no failing call
    the write is refused in every round, whatever the number of rounds. *)
Theorem X10_missing_field_spins fuel : ∀ userID availableChange totalChange item balance w,
  sched w = [] →
  Balances (db w) !! userID = Some item →
  UnmarshalBalance item = inl balance →
  item !! "available" = None ∨ item !! "total" = None →
  0 <= Available balance + availableChange →
  0 <= Total balance + totalChange →
  Sample.UpdateBalance fuel userID availableChange totalChange w = None.
Proof.
  induction fuel as [|fuel IH];
    intros userID availableChange totalChange item balance w Hs Hitem Hdec Hmiss HA HT;
    [done|].
  set (w1 := landed (ReqGetItem (fetchInput userID)) w).
  assert (sched w1 = []) as Hs1 by (by apply calm_landed).
  assert (db w1 = db w) as Hdb1 by (unfold w1, landed; cbn [db]; by apply calm_arrival).
  assert (FetchBalance userID w = (inl balance, w1)) as Hfetch.
  { rewrite (FetchBalance_quiet userID w (calm_head w Hs)).
    by rewrite (calm_arrival w Hs), Hitem, Hdec. }
  destruct (sample_round fuel userID availableChange totalChange w balance w1
              Hfetch HA HT (calm_head w1 Hs1)) as [_ Hretry].
  rewrite Hretry.
  - eapply IH; [| |exact Hdec|exact Hmiss|exact HA|exact HT].
    + by apply calm_landed.
    + unfold landed at 1. cbn [db]. by rewrite (calm_arrival w1 Hs1), Hdb1.
  - unfold sameAsRead. rewrite (calm_arrival w1 Hs1), Hdb1, Hitem. simpl.
    intros [Ha Ht]. destruct Hmiss as [Hm|Hm]; congruence.
Qed.

Lemma X10_missing_field_spins_witness :
  let item := itemWithoutAvailable "u1" 50 in
  let balance := {| UserID := "u1"; Available := 0; Total := 50 |} in
  let w := calm {| Balances := {[ "u1" := item ]}; Orders := ∅ |} in
  (sched w = []
   ∧ Balances (db w) !! "u1" = Some item
   ∧ UnmarshalBalance item = inl balance
   ∧ (item !! "available" = None ∨ item !! "total" = None)
   ∧ 0 <= Available balance + 5
   ∧ 0 <= Total balance + 5)
  ∧ Sample.UpdateBalance 25 "u1" 5 5 w = None.
Proof.
  intros item balance w.
  assert (sched w = []) as Hs by reflexivity.
  assert (Balances (db w) !! "u1" = Some item) as Hitem by (vm_compute; reflexivity).
  assert (UnmarshalBalance item = inl balance) as Hdec by (vm_compute; reflexivity).
  assert (item !! "available" = None ∨ item !! "total" = None) as Hmiss
    by (left; vm_compute; reflexivity).
  assert (0 <= Available balance + 5) as HA by (simpl; lia).
  assert (0 <= Total balance + 5) as HT by (simpl; lia).
  exact (conj (conj Hs (conj Hitem (conj Hdec (conj Hmiss (conj HA HT)))))
              (X10_missing_field_spins 25 "u1" 5 5 item balance w
                 Hs Hitem Hdec Hmiss HA HT)).
Defined.



(** ** CreateSellOrder: the order is written first *)

Lemma orderPut_facts o w :
  quiet (sched w) = true →
  quiet (sched (orderPut o w)) = true
  ∧ Balances (db (orderPut o w)) = Balances (db w)
  ∧ Orders (db (orderPut o w)) !! OrderID o = Some (MarshalOrder o)
  ∧ sched (orderPut o w) = tail (sched w)
  ∧ writes (orderPut o w)
    = writes w ++ [ReqPutItem {| pi_TableName := "Orders"; pi_Item := MarshalOrder o |}].
Proof.
  intros Hq. unfold orderPut. cbn [db sched Balances Orders].
  rewrite (quiet_arrival w Hq).
  split; [by apply quiet_tail|]. split; [done|].
  split; [apply lookup_insert_eq|]. split; [done|].
  unfold writes at 1. cbn [trace]. by rewrite writes_app.
Qed.

(** [CreateSellOrder] of the two-delta program, from the put on, when the
    put is not failed by the service. *)
Lemma sample_CreateSellOrder_eq fuel userID orderID amount w :
  0 < amount →
  head (sched w) ≫= fault = None →
  Sample.CreateSellOrder fuel userID orderID amount w
  = match Sample.UpdateBalance fuel userID (- amount) (- amount)
            (orderPut (newOrder userID orderID amount) w) with
    | None => None
    | Some (Some e, w2) => Some (Some (Errorf "failed to update balance: " e), w2)
    | Some (None, w2) => Some (None, w2)
    end.
Proof.
  intros Hpos Hok. unfold Sample.CreateSellOrder, MarshalMap.
  rewrite (proj2 (Z.leb_gt amount 0) Hpos).
  fold (newOrder userID orderID amount).
  by rewrite PutItem_order, Hok.
Qed.

Lemma cmd_CreateSellOrder_eq userID orderID amount w :
  0 < amount →
  head (sched w) ≫= fault = None →
  Cmd.CreateSellOrder userID orderID amount w
  = let r := Cmd.UpdateBalance userID (- amount)
               (orderPut (newOrder userID orderID amount) w) in
    (match r.1 with
     | Some e => Some (Errorf "failed to update balance: " e)
     | None => None
     end, r.2).
Proof.
  intros Hpos Hok. unfold Cmd.CreateSellOrder, MarshalMap.
  rewrite (proj2 (Z.leb_gt amount 0) Hpos).
  fold (newOrder userID orderID amount).
  rewrite PutItem_order, Hok. cbv zeta.
  by destruct (Cmd.UpdateBalance _ _ _) as [[e|] w2].
Qed.

(** X12: [CreateSellOrder] of the two-delta program with an amount that the
    balance does not cover.  In a run where no other client writes and
    neither the put nor the read is failed by the service, the call
    returns the failed-to-update-balance error around the negative-balance
    error; the pending order has been stored all the same and stays
    stored, and the balance is as it was. *)
Theorem X12_order_stays_when_funds_fall_short
    fuel userID orderID amount available total w :
  quiet (sched w) = true →
  head (sched w) ≫= fault = None →
  head (tail (sched w)) ≫= fault = None →
  Balances (db w) !! userID
  = Some (BalanceItem {| UserID := userID; Available := available; Total := total |}) →
  0 < amount →
  available < amount ∨ total < amount →
  ∃ w', Sample.CreateSellOrder (S fuel) userID orderID amount w
        = Some (Some (Errorf "failed to update balance: " ErrNegativeBalance), w')
        ∧ Orders (db w') !! orderID
          = Some (MarshalOrder (newOrder userID orderID amount))
        ∧ Balances (db w') = Balances (db w)
        ∧ writes w'
          = writes w ++ [ReqPutItem {| pi_TableName := "Orders";
                                       pi_Item := MarshalOrder
                                                    (newOrder userID orderID amount) |}].
Proof.
  intros Hq Hok Hok1 Hbal Hpos Hshort.
  set (order := newOrder userID orderID amount).
  destruct (orderPut_facts order w Hq) as (Hq1 & Hbal1 & Hord1 & Hs1 & Hwr1).
  set (w1 := orderPut order w) in *.
  set (balance := {| UserID := userID; Available := available; Total := total |}) in *.
  assert (FetchBalance userID w1
          = (inl balance, landed (ReqGetItem (fetchInput userID)) w1)) as Hfetch.
  { rewrite (FetchBalance_quiet userID w1) by (by rewrite Hs1).
    by rewrite (quiet_arrival w1 Hq1), Hbal1, Hbal, UnmarshalBalance_BalanceItem. }
  destruct (quiet_landed (ReqGetItem (fetchInput userID)) w1 Hq1) as [Hdb2 _].
  exists (landed (ReqGetItem (fetchInput userID)) w1). split.
  - rewrite (sample_CreateSellOrder_eq _ _ _ _ _ Hpos Hok). fold order. fold w1.
    cbn [Sample.UpdateBalance]. rewrite Hfetch.
    rewrite sign_test_fails; [done|]. cbn [Available Total balance]. lia.
  - rewrite Hdb2. split; [exact Hord1|]. split; [exact Hbal1|].
    unfold writes at 1, landed. cbn [trace]. rewrite writes_app. cbn [isWrite].
    rewrite app_nil_r. exact Hwr1.
Qed.

Lemma X12_order_stays_when_funds_fall_short_witness :
  let w := calm (exampleStore 10 10) in
  (quiet (sched w) = true
   ∧ Balances (db w) !! "u1"
     = Some (BalanceItem {| UserID := "u1"; Available := 10; Total := 10 |})
   ∧ 0 < 50
   ∧ (10 < 50 ∨ 10 < 50))
  ∧ ∃ w', Sample.CreateSellOrder 1 "u1" "o2" 50 w
          = Some (Some (Errorf "failed to update balance: " ErrNegativeBalance), w')
          ∧ Orders (db w') !! "o2" = Some (MarshalOrder (newOrder "u1" "o2" 50))
          ∧ Balances (db w') = Balances (db w).
Proof.
  intros w.
  assert (quiet (sched w) = true) as Hq by reflexivity.
  assert (Balances (db w) !! "u1"
          = Some (BalanceItem {| UserID := "u1"; Available := 10; Total := 10 |}))
    as Hbal by (vm_compute; reflexivity).
  assert (0 < 50) as Hpos by lia.
  assert (10 < 50 ∨ 10 < 50) as Hshort by (left; lia).
  destruct (X12_order_stays_when_funds_fall_short 0 "u1" "o2" 50 10 10 w
              Hq eq_refl eq_refl Hbal Hpos Hshort) as (w' & Hr & Hord & Hb & _).
  exact (conj (conj Hq (conj Hbal (conj Hpos Hshort)))
              (ex_intro _ w' (conj Hr (conj Hord Hb)))).
Defined.

Lemma UpdateBalance_no_record fuel userID availableChange totalChange amount w :
  head (sched w) ≫= fault = None →
  Balances (arrival w) !! userID = None →
  Sample.UpdateBalance (S fuel) userID availableChange totalChange w
    = Some (Some (ErrNoBalance userID), landed (ReqGetItem (fetchInput userID)) w)
  ∧ Cmd.UpdateBalance userID amount w
    = (Some (ErrNoBalance userID), landed (ReqGetItem (fetchInput userID)) w).
Proof.
  intros Hok Hnone.
  assert (FetchBalance userID w
          = (inr (ErrNoBalance userID), landed (ReqGetItem (fetchInput userID)) w))
    as Hfetch by (by rewrite (FetchBalance_quiet userID w Hok), Hnone).
  cbn [Sample.UpdateBalance]. unfold Cmd.UpdateBalance. by rewrite Hfetch.
Qed.

(** X13: [CreateSellOrder] of either program for a user that has no
    balance record.  In a run where no other client writes and neither the
    put nor the read is failed by the service, the call returns the
    failed-to-update-balance error around the no-item error; the pending
    order has been stored all the same, for a user without a balance, and
    no balance record is created. *)
Theorem X13_order_for_unknown_user fuel userID orderID amount w :
  quiet (sched w) = true →
  head (sched w) ≫= fault = None →
  head (tail (sched w)) ≫= fault = None →
  Balances (db w) !! userID = None →
  0 < amount →
  ∃ w', Sample.CreateSellOrder (S fuel) userID orderID amount w
        = Some (Some (Errorf "failed to update balance: " (ErrNoBalance userID)), w')
        ∧ Cmd.CreateSellOrder userID orderID amount w
          = (Some (Errorf "failed to update balance: " (ErrNoBalance userID)), w')
        ∧ Orders (db w') !! orderID
          = Some (MarshalOrder (newOrder userID orderID amount))
        ∧ Balances (db w') = Balances (db w).
Proof.
  intros Hq Hok Hok1 Hnone Hpos.
  set (order := newOrder userID orderID amount).
  destruct (orderPut_facts order w Hq) as (Hq1 & Hbal1 & Hord1 & Hs1 & _).
  set (w1 := orderPut order w) in *.
  destruct (quiet_landed (ReqGetItem (fetchInput userID)) w1 Hq1) as [Hdb2 _].
  destruct (UpdateBalance_no_record fuel userID (- amount) (- amount) (- amount) w1)
    as [Hs Hc].
  { by rewrite Hs1. }
  { by rewrite (quiet_arrival w1 Hq1), Hbal1. }
  exists (landed (ReqGetItem (fetchInput userID)) w1). split; [|split].
  - rewrite (sample_CreateSellOrder_eq _ _ _ _ _ Hpos Hok). fold order. fold w1.
    by rewrite Hs.
  - rewrite (cmd_CreateSellOrder_eq _ _ _ _ Hpos Hok). cbv zeta. fold order. fold w1.
    by rewrite Hc.
  - rewrite Hdb2. by split.
Qed.

Lemma X13_order_for_unknown_user_witness :
  let w := calm (exampleStore 100 100) in
  (quiet (sched w) = true ∧ Balances (db w) !! "u2" = None ∧ 0 < 40)
  ∧ ∃ w', Sample.CreateSellOrder 1 "u2" "o1" 40 w
          = Some (Some (Errorf "failed to update balance: " (ErrNoBalance "u2")), w')
          ∧ Cmd.CreateSellOrder "u2" "o1" 40 w
            = (Some (Errorf "failed to update balance: " (ErrNoBalance "u2")), w')
          ∧ Orders (db w') !! "o1" = Some (MarshalOrder (newOrder "u2" "o1" 40))
          ∧ Balances (db w') = Balances (db w).
Proof.
  intros w.
  assert (quiet (sched w) = true) as Hq by reflexivity.
  assert (Balances (db w) !! "u2" = None) as Hnone by (vm_compute; reflexivity).
  assert (0 < 40) as Hpos by lia.
  exact (conj (conj Hq (conj Hnone Hpos))
              (X13_order_for_unknown_user 0 "u2" "o1" 40 w
                 Hq eq_refl eq_refl Hnone Hpos)).
Defined.

(** X14: [CreateSellOrder] of either program writes over an order that is
    already stored under the order id.  In a run where no other client
    writes, for an amount above zero and a put that the service does not
    fail, whatever was stored under the id (a settled order too) and
    whatever the balance update then returns, the item under the id is the
    new pending order with the new amount. *)
Theorem X14_CreateSellOrder_overwrites fuel userID orderID amount w :
  quiet (sched w) = true →
  head (sched w) ≫= fault = None →
  0 < amount →
  (∀ r w', Sample.CreateSellOrder fuel userID orderID amount w = Some (r, w') →
           Orders (db w') !! orderID
           = Some (MarshalOrder (newOrder userID orderID amount)))
  ∧ Orders (db (Cmd.CreateSellOrder userID orderID amount w).2) !! orderID
    = Some (MarshalOrder (newOrder userID orderID amount)).
Proof.
  intros Hq Hok Hpos.
  set (order := newOrder userID orderID amount).
  destruct (orderPut_facts order w Hq) as (Hq1 & _ & Hord1 & _ & _).
  set (w1 := orderPut order w) in *.
  split.
  - intros r w'. rewrite (sample_CreateSellOrder_eq _ _ _ _ _ Hpos Hok).
    fold order. fold w1.
    destruct (Sample.UpdateBalance fuel userID (- amount) (- amount) w1)
      as [[r2 w2]|] eqn:Hupd; [|done].
    destruct (sample_UpdateBalance_frame _ _ _ _ _ _ _ Hq1 Hupd) as [_ Hord].
    intros H. assert (w' = w2) as -> by (destruct r2; by simplify_eq).
    by rewrite Hord.
  - rewrite (cmd_CreateSellOrder_eq _ _ _ _ Hpos Hok). cbv zeta. fold order. fold w1.
    cbn [snd].
    destruct (cmd_UpdateBalance_frame userID (- amount) w1 Hq1) as [_ Hord].
    by rewrite Hord.
Qed.

Lemma X14_CreateSellOrder_overwrites_witness :
  let settled := withStatus pendingOrder "Settled" in
  let d := {| Balances := Balances storeWithOrder;
              Orders := {[ "o1" := MarshalOrder settled ]} |} in
  let w := calm d in
  (quiet (sched w) = true ∧ head (sched w) ≫= fault = None ∧ 0 < 15)
  ∧ Orders (db w) !! "o1" = Some (MarshalOrder settled)
  ∧ Orders (db (Cmd.CreateSellOrder "u1" "o1" 15 w).2) !! "o1"
    = Some (MarshalOrder (newOrder "u1" "o1" 15)).
Proof.
  intros settled d w.
  assert (quiet (sched w) = true) as Hq by reflexivity.
  assert (head (sched w) ≫= fault = None) as Hok by reflexivity.
  assert (0 < 15) as Hpos by lia.
  assert (Orders (db w) !! "o1" = Some (MarshalOrder settled)) as Hold
    by (vm_compute; reflexivity).
  destruct (X14_CreateSellOrder_overwrites 1 "u1" "o1" 15 w Hq Hok Hpos) as [_ Hcmd].
  exact (conj (conj Hq (conj Hok Hpos)) (conj Hold Hcmd)).
Defined.

(** ** Settle: its errors, and the balance it touches *)

(** X15: [Settle] of either program for an order id under which nothing is
    stored, when the read is not failed by the service, returns the
    no-order error that names the id; it sends no write, so the status
    update (which would create an item) creates nothing, and the store is
    as the read found it. *)
Theorem X15_Settle_missing_order userID orderID w :
  head (sched w) ≫= fault = None →
  Orders (arrival w) !! orderID = None →
  let w1 := landed (ReqGetItem (getOrderInput orderID)) w in
  Sample.Settle orderID w = (Some (ErrNoOrder orderID), w1)
  ∧ Cmd.Settle userID orderID w = (Some (ErrNoOrder orderID), w1)
  ∧ db w1 = arrival w
  ∧ writes w1 = writes w.
Proof.
  intros Hok Hnone w1.
  rewrite sample_Settle_eq, cmd_Settle_eq. cbv zeta. rewrite Hok, Hnone.
  fold w1. split; [done|]. split; [done|]. split; [done|].
  unfold writes at 1, w1, landed. cbn [trace]. rewrite writes_app. cbn [isWrite].
  by rewrite app_nil_r.
Qed.

Lemma X15_Settle_missing_order_witness :
  let w := calm storeWithOrder in
  let w1 := landed (ReqGetItem (getOrderInput "o9")) w in
  (head (sched w) ≫= fault = None ∧ Orders (arrival w) !! "o9" = None)
  ∧ Sample.Settle "o9" w = (Some (ErrNoOrder "o9"), w1)
  ∧ Cmd.Settle "u1" "o9" w = (Some (ErrNoOrder "o9"), w1)
  ∧ db w1 = arrival w.
Proof.
  intros w w1.
  assert (head (sched w) ≫= fault = None) as Hok by reflexivity.
  assert (Orders (arrival w) !! "o9" = None) as Hnone by (vm_compute; reflexivity).
  destruct (X15_Settle_missing_order "u1" "o9" w Hok Hnone) as (Hs & Hc & Hdb & _).
  exact (conj (conj Hok Hnone) (conj Hs (conj Hc Hdb))).
Defined.

(** X16: [Settle] of [src/cmd/main.go] with a user that has no balance
    record.  With no other client and no failing call, on a pending order,
    the call returns the failed-to-update-balance error around the no-item
    error, yet the order has been stored as Settled and no balance has
    changed; a second call then returns the already-settled error, so the
    balance update of this order is never made by [Settle]. *)
Theorem X16_Settle_without_balance userID userID2 orderID order w :
  sched w = [] →
  Orders (db w) !! orderID = Some (MarshalOrder order) →
  Status order = "Pending" →
  Balances (db w) !! userID = None →
  let first := Cmd.Settle userID orderID w in
  let second := Cmd.Settle userID2 orderID first.2 in
  first.1 = Some (Errorf "failed to update balance: " (ErrNoBalance userID))
  ∧ Orders (db first.2) !! orderID = Some (MarshalOrder (withStatus order "Settled"))
  ∧ Balances (db first.2) = Balances (db w)
  ∧ second.1 = Some ErrAlreadySettled
  ∧ db second.2 = db first.2.
Proof.
  intros Hs Horder Hpending Hnone.
  pose proof (setSettled_lookup orderID (db w) order Horder) as Hsettled.
  assert (Cmd.Settle userID orderID w
          = (Some (Errorf "failed to update balance: " (ErrNoBalance userID)),
             {| db := setSettled orderID (db w);
                sched := [];
                trace := ((trace w ++ [ReqGetItem (getOrderInput orderID)])
                          ++ [ReqUpdateItem (Sample.settleInput orderID)])
                         ++ [ReqGetItem (fetchInput userID)] |})) as Hfirst.
  { rewrite cmd_Settle_eq. cbv zeta.
    rewrite (calm_head w Hs), (calm_arrival w Hs), Horder, UnmarshalOrder_MarshalOrder.
    rewrite Hpending. cbn [String.eqb Ascii.eqb Bool.eqb].
    rewrite (calm_head _ (calm_landed _ w Hs)), (calm_arrival _ (calm_landed _ w Hs)).
    rewrite (calm_landed _ w Hs). cbn [tail].
    unfold landed. cbn [db trace]. rewrite !(calm_arrival w Hs).
    set (w2 := {| db := setSettled orderID (db w); sched := []; trace := _ |}).
    destruct (UpdateBalance_no_record 0 userID 0 0 (- Amount order) w2 eq_refl Hnone)
      as [_ ->].
    reflexivity. }
  cbv zeta. rewrite Hfirst. cbn [fst snd db].
  set (w3 := {| db := setSettled orderID (db w); sched := []; trace := _ |}).
  destruct (Settle_settled_calm userID2 orderID (withStatus order "Settled") w3
              eq_refl Hsettled eq_refl) as [_ ->].
  by cbn [fst snd db].
Qed.

Lemma X16_Settle_without_balance_witness :
  let w := calm {| Balances := ∅; Orders := Orders storeWithOrder |} in
  let first := Cmd.Settle "u1" "o1" w in
  let second := Cmd.Settle "u1" "o1" first.2 in
  (sched w = []
   ∧ Orders (db w) !! "o1" = Some (MarshalOrder pendingOrder)
   ∧ Status pendingOrder = "Pending"
   ∧ Balances (db w) !! "u1" = None)
  ∧ first.1 = Some (Errorf "failed to update balance: " (ErrNoBalance "u1"))
  ∧ Orders (db first.2) !! "o1"
    = Some (MarshalOrder (withStatus pendingOrder "Settled"))
  ∧ second.1 = Some ErrAlreadySettled.
Proof.
  intros w first second.
  assert (sched w = []) as Hs by reflexivity.
  assert (Orders (db w) !! "o1" = Some (MarshalOrder pendingOrder)) as Horder
    by (vm_compute; reflexivity).
  assert (Status pendingOrder = "Pending") as Hpending by reflexivity.
  assert (Balances (db w) !! "u1" = None) as Hnone by (vm_compute; reflexivity).
  destruct (X16_Settle_without_balance "u1" "u1" "o1" pendingOrder w
              Hs Horder Hpending Hnone) as (H1 & H2 & _ & H3 & _).
  exact (conj (conj Hs (conj Horder (conj Hpending Hnone)))
              (conj H1 (conj H2 H3))).
Defined.




(** X18: [Settle] of [src/sample/cmd/sample/main.go] makes no request on
    the balances: whatever the schedule, it sends the read of the order
    and at most the status update of that order; and in a run where no
    other client writes, every balance is after the call as it was
    before. *)
Theorem X18_sample_Settle_leaves_balances orderID w :
  (trace (Sample.Settle orderID w).2
   = trace w ++ [ReqGetItem (getOrderInput orderID)]
   ∨ trace (Sample.Settle orderID w).2
     = trace w ++ [ReqGetItem (getOrderInput orderID);
                   ReqUpdateItem (Sample.settleInput orderID)])
  ∧ (quiet (sched w) = true →
     Balances (db (Sample.Settle orderID w).2) = Balances (db w)).
Proof.
  rewrite sample_Settle_eq. cbv zeta.
  set (w1 := landed (ReqGetItem (getOrderInput orderID)) w).
  assert (trace w1 = trace w ++ [ReqGetItem (getOrderInput orderID)]) as Htr1
    by reflexivity.
  assert (quiet (sched w) = true → db w1 = db w ∧ quiet (sched w1) = true) as Hw1
    by (intros Hq; by apply quiet_landed).
  destruct (head (sched w) ≫= fault);
    [split; [by left|intros Hq; cbn [snd]; by destruct (Hw1 Hq) as [-> _]]|].
  destruct (Orders (arrival w) !! orderID) as [item|];
    [|split; [by left|intros Hq; cbn [snd]; by destruct (Hw1 Hq) as [-> _]]].
  destruct (UnmarshalOrder item) as [order|e];
    [|split; [by left|intros Hq; cbn [snd]; by destruct (Hw1 Hq) as [-> _]]].
  destruct (String.eqb (Status order) "Settled");
    [split; [by left|intros Hq; cbn [snd]; by destruct (Hw1 Hq) as [-> _]]|].
  destruct (head (sched w1) ≫= fault).
  - split.
    + right. unfold landed at 1. cbn [snd trace]. by rewrite Htr1, <- app_assoc.
    + intros Hq. destruct (Hw1 Hq) as [Hdb1 Hq1]. cbn [snd].
      destruct (quiet_landed (ReqUpdateItem (Sample.settleInput orderID)) w1 Hq1)
        as [-> _].
      by rewrite Hdb1.
  - split.
    + right. cbn [snd trace]. by rewrite Htr1, <- app_assoc.
    + intros Hq. destruct (Hw1 Hq) as [Hdb1 Hq1]. cbn [snd db].
      unfold setSettled. cbn [Balances]. by rewrite (quiet_arrival w1 Hq1), Hdb1.
Qed.

(** ** CreateSellOrder and then Settle *)






